(** * AndroidVisionAutomator: the plan / execute / verify / replan loop

    A shallow embedding of
      - [backend/services/claude_llm_client.py]  (module [ClaudeLLM]),
      - [mcp-server/src/android_vision_mcp.py]   (module [MCP]),
      - the [/api/plan] route of [backend/app.py] (module [App]),
    together with the fragments of the Python runtime they rely on
    ([str.find], [str.rfind], slicing, [str.upper], [json.loads],
    [json.dumps], [str()] / [repr()]).

    Conventions.
      - A Python [str] is modelled by the Rocq [string] of its UTF-8
        bytes.  On 7-bit text this is the identity.  [str.upper] is
        modelled on the ASCII letters only, which is exact on 7-bit text.
      - A Python [float] is carried as its decimal numeral; binary
        rounding is not modelled.
      - The reasoning oracle ([llm.complete]) is an arbitrary function of
        the number of earlier calls and of the prompt; it may raise.
        [max_tokens] is handed to the service and has no other use.
      - [async]/[await] is sequential composition: one task is driven by
        one caller.
      - Logging has no effect on what is returned and is left out.
      - Python's recursion limit is not modelled: [json.loads] is taken
        to decode texts of any nesting depth. *)

From Stdlib Require Import String Ascii List ZArith NArith Bool Lia Arith.
From Stdlib Require Import DecimalString DecimalNat DecimalZ.
Import ListNotations.

Local Open Scope string_scope.
Local Open Scope Z_scope.

Infix "+++" := String.append (right associativity, at level 60).

(* ================================================================== *)
(** ** Text *)

Module Text.

(** The two characters that a Rocq literal cannot spell out. *)
Definition dq : ascii := ascii_of_nat 34.
Definition nl : string := String (ascii_of_nat 10) EmptyString.

(** [qq s] is [s] with every backquote turned into a double quote:
    [qq "{`a`: 1}"] is the text [{"a": 1}]. *)
Fixpoint qq (s : string) : string :=
  match s with
  | EmptyString => EmptyString
  | String c r => String (if Ascii.eqb c "`" then dq else c) (qq r)
  end.

(** [unlines] lays a template out line by line, as in the source. *)
Fixpoint unlines (ls : list string) : string :=
  match ls with
  | [] => EmptyString
  | [l] => l
  | l :: rest => l +++ nl +++ unlines rest
  end.

Definition len (s : string) : Z := Z.of_nat (String.length s).

(** [s.find(c)] for a one-character needle: least index, or -1. *)
Fixpoint find (c : ascii) (s : string) : Z :=
  match s with
  | EmptyString => -1
  | String d r =>
      if Ascii.eqb d c then 0
      else let k := find c r in if k <? 0 then -1 else k + 1
  end.

(** [s.rfind(c)]: greatest index, or -1. *)
Fixpoint rfind (c : ascii) (s : string) : Z :=
  match s with
  | EmptyString => -1
  | String d r =>
      let k := rfind c r in
      if 0 <=? k then k + 1
      else if Ascii.eqb d c then 0 else -1
  end.

Fixpoint drop (n : nat) (s : string) : string :=
  match n, s with
  | O, _ => s
  | S n', String _ r => drop n' r
  | S _, EmptyString => EmptyString
  end.

Fixpoint take (n : nat) (s : string) : string :=
  match n, s with
  | S n', String c r => String c (take n' r)
  | _, _ => EmptyString
  end.

(** Python's index normalisation for a slice bound. *)
Definition clamp (s : string) (i : Z) : Z :=
  let i' := if i <? 0 then i + len s else i in
  Z.max 0 (Z.min i' (len s)).

(** [s[a:b]]. *)
Definition slice (s : string) (a b : Z) : string :=
  let a' := clamp s a in
  let b' := clamp s b in
  take (Z.to_nat (b' - a')) (drop (Z.to_nat a') s).

Definition is_lower (c : ascii) : bool :=
  let n := nat_of_ascii c in (97 <=? n)%nat && (n <=? 122)%nat.

Definition upper_char (c : ascii) : ascii :=
  if is_lower c then ascii_of_nat (nat_of_ascii c - 32) else c.

(** [s.upper()] on 7-bit text. *)
Fixpoint upper (s : string) : string :=
  match s with
  | EmptyString => EmptyString
  | String c r => String (upper_char c) (upper r)
  end.

Fixpoint starts_with (p s : string) : bool :=
  match p, s with
  | EmptyString, _ => true
  | String a p', String b s' => Ascii.eqb a b && starts_with p' s'
  | String _ _, EmptyString => false
  end.

(** [needle in hay]. *)
Fixpoint contains (needle hay : string) : bool :=
  starts_with needle hay ||
  match hay with
  | EmptyString => false
  | String _ r => contains needle r
  end.

(** [str(n)] for an integer. *)
Definition dec (z : Z) : string := NilEmpty.string_of_int (Z.to_int z).

Fixpoint join (sep : string) (ls : list string) : string :=
  match ls with
  | [] => EmptyString
  | [l] => l
  | l :: rest => l +++ sep +++ join sep rest
  end.

End Text.
Import Text.

(* ================================================================== *)
(** ** Python values *)

(** What [json.loads] can return, and what the dictionaries handed
    around by the REST client hold.  A dictionary keeps insertion
    order (it matters to [json.dumps]); its keys are strings. *)
#[local] Set Warnings "-register-all".

Inductive pyval : Type :=
| PyNone
| PyBool (b : bool)
| PyInt (z : Z)
| PyFloat (numeral : string)
| PyStr (s : string)
| PyList (items : list pyval)
| PyDict (pairs : list (string * pyval)).

Definition pydict : Type := list (string * pyval).

Module Dict.

(** [d[k]]: [None] stands for [KeyError]. *)
Fixpoint lookup (k : string) (d : pydict) : option pyval :=
  match d with
  | [] => None
  | (k', v) :: rest => if String.eqb k k' then Some v else lookup k rest
  end.

(** [d.get(k, default)]. *)
Definition get_default (k : string) (default : pyval) (d : pydict) : pyval :=
  match lookup k d with
  | Some v => v
  | None => default
  end.

(** [d.get(k)]. *)
Definition get (k : string) (d : pydict) : pyval := get_default k PyNone d.

(** [d[k] = v]: an existing key keeps its position. *)
Fixpoint set (k : string) (v : pyval) (d : pydict) : pydict :=
  match d with
  | [] => [(k, v)]
  | (k', v') :: rest =>
      if String.eqb k k' then (k', v) :: rest else (k', v') :: set k v rest
  end.

(** [dict(pairs)]. *)
Definition of_pairs (ps : list (string * pyval)) : pydict :=
  fold_left (fun d kv => set (fst kv) (snd kv) d) ps [].

End Dict.

(** Truth value of an object, as [or] and [not] test it.  A float is
    false when every digit of its mantissa is 0. *)
Fixpoint mantissa_zero (s : string) : bool :=
  match s with
  | EmptyString => true
  | String c r =>
      if Ascii.eqb c "e" || Ascii.eqb c "E" then true
      else if Ascii.eqb c "0" || Ascii.eqb c "." || Ascii.eqb c "-"
           then mantissa_zero r
           else false
  end.

Definition truthy (v : pyval) : bool :=
  match v with
  | PyNone => false
  | PyBool b => b
  | PyInt z => negb (z =? 0)
  | PyFloat n => negb (mantissa_zero n)
  | PyStr s => negb (String.eqb s "")
  | PyList l => match l with [] => false | _ => true end
  | PyDict d => match d with [] => false | _ => true end
  end.

(** [a or b]. *)
Definition py_or (a b : pyval) : pyval := if truthy a then a else b.

(* ================================================================== *)
(** ** [json.loads] *)

Module Json.

Definition is_ws (c : ascii) : bool :=
  Ascii.eqb c " " || (nat_of_ascii c =? 9)%nat
  || (nat_of_ascii c =? 10)%nat || (nat_of_ascii c =? 13)%nat.

Fixpoint skip_ws (s : string) : string :=
  match s with
  | String c r => if is_ws c then skip_ws r else s
  | EmptyString => s
  end.

Definition is_digit (c : ascii) : bool :=
  let n := nat_of_ascii c in (48 <=? n)%nat && (n <=? 57)%nat.

(** Longest prefix of digits, and what follows it. *)
Fixpoint span_digits (s : string) : string * string :=
  match s with
  | String c r =>
      if is_digit c
      then let '(ds, rest) := span_digits r in (String c ds, rest)
      else (EmptyString, s)
  | EmptyString => (EmptyString, EmptyString)
  end.

Definition digit_val (c : ascii) : Z := Z.of_nat (nat_of_ascii c) - 48.

Fixpoint digits_val (acc : Z) (s : string) : Z :=
  match s with
  | EmptyString => acc
  | String c r => digits_val (10 * acc + digit_val c) r
  end.

Definition hex_val (c : ascii) : option N :=
  let n := N.of_nat (nat_of_ascii c) in
  if is_digit c then Some (n - 48)%N
  else if ((97 <=? n) && (n <=? 102))%N then Some (n - 87)%N
  else if ((65 <=? n) && (n <=? 70))%N then Some (n - 55)%N
  else None.

(** Four hexadecimal digits. *)
Definition hex4 (s : string) : option (N * string) :=
  match s with
  | String a (String b (String c (String d r))) =>
      match hex_val a, hex_val b, hex_val c, hex_val d with
      | Some x, Some y, Some z, Some w =>
          Some (((x * 16 + y) * 16 + z) * 16 + w, r)%N
      | _, _, _, _ => None
      end
  | _ => None
  end.

Definition byte (n : N) : ascii := ascii_of_N n.

(** [chr(n)], in UTF-8. *)
Definition utf8 (n : N) : string :=
  (if n <? 128 then String (byte n) EmptyString
   else if n <? 2048 then
     String (byte (192 + n / 64)) (String (byte (128 + n mod 64)) EmptyString)
   else if n <? 65536 then
     String (byte (224 + n / 4096))
       (String (byte (128 + (n / 64) mod 64))
          (String (byte (128 + n mod 64)) EmptyString))
   else
     String (byte (240 + n / 262144))
       (String (byte (128 + (n / 4096) mod 64))
          (String (byte (128 + (n / 64) mod 64))
             (String (byte (128 + n mod 64)) EmptyString))))%N.

(** [\uXXXX], with a following low surrogate folded in. *)
Definition unicode_escape (s : string) : option (string * string) :=
  match hex4 s with
  | None => None
  | Some (u, r) =>
      if ((55296 <=? u) && (u <=? 56319))%N && starts_with "\u" r then
        match hex4 (drop 2 r) with
        | None => None
        | Some (u2, r2) =>
            if ((56320 <=? u2) && (u2 <=? 57343))%N
            then Some (utf8 (65536 + ((u - 55296) * 1024 + (u2 - 56320))), r2)%N
            else Some (utf8 u, r)
        end
      else Some (utf8 u, r)
  end.

(** [py_scanstring] in strict mode, entered after the opening quote;
    [acc] is the text read so far.  Every step consumes a character, so
    the length of the input is fuel enough. *)
Fixpoint scanstring (fuel : nat) (acc : string) (s : string)
  : option (string * string) :=
  match fuel with
  | O => None
  | S fuel' =>
      match s with
      | EmptyString => None
      | String c r =>
          if Ascii.eqb c dq then Some (acc, r)
          else if Ascii.eqb c "\" then
            match r with
            | EmptyString => None
            | String e r' =>
                let plain (x : ascii) :=
                  scanstring fuel' (acc +++ String x EmptyString) r' in
                if Ascii.eqb e dq then plain dq
                else if Ascii.eqb e "\" then plain "\"%char
                else if Ascii.eqb e "/" then plain "/"%char
                else if Ascii.eqb e "b" then plain (ascii_of_nat 8)
                else if Ascii.eqb e "f" then plain (ascii_of_nat 12)
                else if Ascii.eqb e "n" then plain (ascii_of_nat 10)
                else if Ascii.eqb e "r" then plain (ascii_of_nat 13)
                else if Ascii.eqb e "t" then plain (ascii_of_nat 9)
                else if Ascii.eqb e "u" then
                  match unicode_escape r' with
                  | Some (ch, r'') => scanstring fuel' (acc +++ ch) r''
                  | None => None
                  end
                else None
            end
          else if (nat_of_ascii c <? 32)%nat then None
          else scanstring fuel' (acc +++ String c EmptyString) r
      end
  end.

(** [next_is c s]: the text after the first character of [s] when that
    character is [c]. *)
Definition next_is (c : ascii) (s : string) : option string :=
  match s with
  | String d r => if Ascii.eqb d c then Some r else None
  | EmptyString => None
  end.

(** The number pattern of the scanner: an optional minus sign, then
    either a single 0 or a non-zero digit followed by digits; then an
    optional fraction (a dot and at least one digit); then an optional
    exponent (e or E, an optional sign, at least one digit). *)
Definition match_integer (s : string) : option (string * string) :=
  let '(sign, body) :=
    match next_is "-" s with
    | Some r => ("-", r)
    | None => ("", s)
    end in
  match next_is "0" body with
  | Some r => Some (sign +++ "0", r)
  | None =>
      let '(ds, r) := span_digits body in
      if String.eqb ds "" then None else Some (sign +++ ds, r)
  end.

Definition match_frac (s : string) : string * string :=
  match next_is "." s with
  | Some r =>
      let '(ds, r') := span_digits r in
      if String.eqb ds "" then ("", s) else ("." +++ ds, r')
  | None => ("", s)
  end.

Definition match_exp (s : string) : string * string :=
  match s with
  | String e r =>
      if Ascii.eqb e "e" || Ascii.eqb e "E" then
        let '(sign, r1) :=
          match next_is "+" r, next_is "-" r with
          | Some r1, _ => ("+", r1)
          | None, Some r1 => ("-", r1)
          | None, None => ("", r)
          end in
        let '(ds, r2) := span_digits r1 in
        if String.eqb ds "" then ("", s)
        else (String e sign +++ ds, r2)
      else ("", s)
  | EmptyString => ("", s)
  end.

Definition int_of_numeral (s : string) : Z :=
  match next_is "-" s with
  | Some r => - digits_val 0 r
  | None => digits_val 0 s
  end.

Definition match_number (s : string) : option (pyval * string) :=
  match match_integer s with
  | None => None
  | Some (i, r) =>
      let '(f, r1) := match_frac r in
      let '(e, r2) := match_exp r1 in
      if String.eqb f "" && String.eqb e ""
      then Some (PyInt (int_of_numeral i), r2)
      else Some (PyFloat (i +++ f +++ e), r2)
  end.

Definition literal (word : string) (v : pyval) (s : string)
  : option (pyval * string) :=
  if starts_with word s
  then Some (v, drop (String.length word) s)
  else None.

(** [scan_once], [JSONArray] and [JSONObject] of the decoder.
    [parse_array] and [parse_object] are entered where a value, resp. a
    key's opening quote, is due; [acc] holds what was read, newest
    first. *)
Fixpoint scan_once (fuel : nat) (s : string) : option (pyval * string) :=
  match fuel with
  | O => None
  | S fuel' =>
      match s with
      | EmptyString => None
      | String c r =>
          if Ascii.eqb c dq then
            match scanstring (String.length r) "" r with
            | Some (str, r') => Some (PyStr str, r')
            | None => None
            end
          else if Ascii.eqb c "{" then
            let r1 := skip_ws r in
            match next_is "}" r1 with
            | Some r' => Some (PyDict [], r')
            | None => parse_object fuel' [] r1
            end
          else if Ascii.eqb c "[" then
            let r1 := skip_ws r in
            match next_is "]" r1 with
            | Some r' => Some (PyList [], r')
            | None => parse_array fuel' [] r1
            end
          else if starts_with "null" s then literal "null" PyNone s
          else if starts_with "true" s then literal "true" (PyBool true) s
          else if starts_with "false" s then literal "false" (PyBool false) s
          else
            match match_number s with
            | Some res => Some res
            | None =>
                if starts_with "NaN" s then literal "NaN" (PyFloat "NaN") s
                else if starts_with "Infinity" s
                then literal "Infinity" (PyFloat "Infinity") s
                else literal "-Infinity" (PyFloat "-Infinity") s
            end
      end
  end

with parse_array (fuel : nat) (acc : list pyval) (s : string)
  : option (pyval * string) :=
  match fuel with
  | O => None
  | S fuel' =>
      match scan_once fuel' s with
      | None => None
      | Some (v, r) =>
          let r1 := skip_ws r in
          match next_is "]" r1, next_is "," r1 with
          | Some r', _ => Some (PyList (rev (v :: acc)), r')
          | None, Some r' => parse_array fuel' (v :: acc) (skip_ws r')
          | None, None => None
          end
      end
  end

with parse_object (fuel : nat) (acc : list (string * pyval)) (s : string)
  : option (pyval * string) :=
  match fuel with
  | O => None
  | S fuel' =>
      match next_is dq s with
      | None => None
      | Some r =>
          match scanstring (String.length r) "" r with
          | None => None
          | Some (key, r1) =>
              match next_is ":" (skip_ws r1) with
              | None => None
              | Some r2 =>
                  match scan_once fuel' (skip_ws r2) with
                  | None => None
                  | Some (v, r3) =>
                      let r4 := skip_ws r3 in
                      match next_is "}" r4, next_is "," r4 with
                      | Some r', _ =>
                          Some (PyDict (Dict.of_pairs (rev ((key, v) :: acc))), r')
                      | None, Some r' =>
                          parse_object fuel' ((key, v) :: acc) (skip_ws r')
                      | None, None => None
                      end
                  end
              end
          end
      end
  end.

(** [json.loads(s)]; [None] stands for [json.JSONDecodeError].  Any two
    nested calls of the decoder consume at least one character between
    them, so twice the length of the input is fuel enough.  A leading
    byte-order mark is refused. *)
Definition loads (s : string) : option pyval :=
  if starts_with (utf8 65279) s then None
  else
    match scan_once (2 * String.length s + 2) (skip_ws s) with
    | Some (v, r) => if String.eqb (skip_ws r) "" then Some v else None
    | None => None
    end.

End Json.

(* ================================================================== *)
(** ** [str()], [repr()] and [json.dumps] *)

Module Render.

Definition hex_digit (n : N) : ascii :=
  ascii_of_N (if (n <? 10)%N then 48 + n else 87 + n)%N.

Definition hex2 (n : N) : string :=
  String (hex_digit (n / 16)) (String (hex_digit (n mod 16)) EmptyString).

Definition hex4 (n : N) : string :=
  (hex2 (n / 256) +++ hex2 (n mod 256))%N.

Definition one (c : ascii) : string := String c EmptyString.

(** [repr] of a string picks double quotes only when the text has a
    single quote and no double quote. *)
Definition repr_quote (s : string) : ascii :=
  if contains "'" s && negb (contains (one dq) s) then dq else "'"%char.

Fixpoint repr_body (q : ascii) (s : string) : string :=
  match s with
  | EmptyString => EmptyString
  | String c r =>
      let n := N_of_ascii c in
      (if Ascii.eqb c "\" then "\\"
       else if Ascii.eqb c q then String "\" (one q)
       else if (n =? 9)%N then "\t"
       else if (n =? 10)%N then "\n"
       else if (n =? 13)%N then "\r"
       else if ((n <? 32) || (n =? 127))%N then "\x" +++ hex2 n
       else one c) +++ repr_body q r
  end.

Definition repr_str (s : string) : string :=
  let q := repr_quote s in one q +++ repr_body q s +++ one q.

(** [repr(v)]. *)
Fixpoint repr (v : pyval) : string :=
  match v with
  | PyNone => "None"
  | PyBool true => "True"
  | PyBool false => "False"
  | PyInt z => dec z
  | PyFloat n => n
  | PyStr s => repr_str s
  | PyList l => "[" +++ join ", " (map repr l) +++ "]"
  | PyDict d =>
      "{" +++ join ", " (map (fun kv => repr_str (fst kv) +++ ": " +++ repr (snd kv)) d)
          +++ "}"
  end.

(** [str(v)], which is what a replacement field of an f-string prints. *)
Definition str (v : pyval) : string :=
  match v with
  | PyStr s => s
  | _ => repr v
  end.

(** Code points of a UTF-8 text (an ill-formed byte stands for itself). *)
Fixpoint code_points (s : string) : list N :=
  match s with
  | EmptyString => []
  | String c r =>
      let n := N_of_ascii c in
      let cont (x : ascii) : N := (N_of_ascii x mod 64)%N in
      if (n <? 192)%N then n :: code_points r
      else if (n <? 224)%N then
        match r with
        | String c1 r1 => ((n mod 32) * 64 + cont c1)%N :: code_points r1
        | _ => n :: code_points r
        end
      else if (n <? 240)%N then
        match r with
        | String c1 (String c2 r2) =>
            (((n mod 16) * 64 + cont c1) * 64 + cont c2)%N :: code_points r2
        | _ => n :: code_points r
        end
      else
        match r with
        | String c1 (String c2 (String c3 r3)) =>
            ((((n mod 8) * 64 + cont c1) * 64 + cont c2) * 64 + cont c3)%N
              :: code_points r3
        | _ => n :: code_points r
        end
  end.

(** One character of a JSON string with [ensure_ascii]. *)
Definition json_char (n : N) : string :=
  (if n =? 34 then String "\" (one dq)
   else if n =? 92 then "\\"
   else if n =? 10 then "\n"
   else if n =? 13 then "\r"
   else if n =? 9 then "\t"
   else if n =? 12 then "\f"
   else if n =? 8 then "\b"
   else if (32 <=? n) && (n <=? 126) then one (ascii_of_N n)
   else if n <? 65536 then "\u" +++ hex4 n
   else
     let v := n - 65536 in
     "\u" +++ hex4 (55296 + v / 1024) +++ "\u" +++ hex4 (56320 + v mod 1024))%N.

Definition json_str (s : string) : string :=
  one dq +++ String.concat "" (map json_char (code_points s)) +++ one dq.

Fixpoint spaces (n : nat) : string :=
  match n with
  | O => EmptyString
  | S n' => String " " (spaces n')
  end.

(** [json.dumps(v, indent=indent)]; [level] is the nesting depth. *)
Fixpoint dumps_at (indent : option nat) (level : nat) (v : pyval) : string :=
  let open :=
    match indent with
    | Some k => nl +++ spaces (k * S level)
    | None => ""
    end in
  let close :=
    match indent with
    | Some k => nl +++ spaces (k * level)
    | None => ""
    end in
  let sep :=
    match indent with
    | Some k => "," +++ open
    | None => ", "
    end in
  match v with
  | PyNone => "null"
  | PyBool true => "true"
  | PyBool false => "false"
  | PyInt z => dec z
  | PyFloat n => n
  | PyStr s => json_str s
  | PyList [] => "[]"
  | PyList l =>
      "[" +++ open +++ join sep (map (dumps_at indent (S level)) l)
          +++ close +++ "]"
  | PyDict [] => "{}"
  | PyDict d =>
      "{" +++ open
          +++ join sep
                (map (fun kv => json_str (fst kv) +++ ": "
                                  +++ dumps_at indent (S level) (snd kv)) d)
          +++ close +++ "}"
  end.

Definition dumps (v : pyval) : string := dumps_at None 0 v.
Definition dumps_indent (k : nat) (v : pyval) : string := dumps_at (Some k) 0 v.

End Render.

(* ================================================================== *)
(** ** Effects: the oracle, exceptions, object identity *)

Inductive exn : Type :=
| ValueError (msg : string)
| KeyError (key : string)
| TypeError
| AttributeError
| IndexError
| OracleError.

Inductive result (A : Type) : Type :=
| Ok (a : A)
| Raise (e : exn).
Arguments Ok {A} a.
Arguments Raise {A} e.

(** What one call of [llm.complete] does. *)
Inductive reply : Type :=
| Reply (text : string)
| Fails.

(** The part of the process the code reads and writes: the oracle (its
    answer may depend on how many calls came before), the prompts sent
    to it so far, oldest first, and the next fresh object identity. *)
Record world : Type := World {
  llm : nat -> string -> reply;
  sent : list string;
  next_id : nat
}.

Definition M (A : Type) : Type := world -> result A * world.

Definition ret {A} (a : A) : M A := fun w => (Ok a, w).

Definition raise {A} (e : exn) : M A := fun w => (Raise e, w).

Definition bind {A B} (m : M A) (k : A -> M B) : M B :=
  fun w =>
    match m w with
    | (Ok a, w') => k a w'
    | (Raise e, w') => (Raise e, w')
    end.

(** [try: m  except Exception: handler]. *)
Definition try_except {A} (m : M A) (handler : exn -> M A) : M A :=
  fun w =>
    match m w with
    | (Ok a, w') => (Ok a, w')
    | (Raise e, w') => handler e w'
    end.

Notation "x <- m ;; k" := (bind m (fun x => k))
  (at level 61, m at next level, right associativity).

(** [await llm.complete(prompt, max_tokens)].  The prompt is recorded
    whether or not the service answers.  Where the source leaves
    [max_tokens] out, the default 1024 is written. *)
Definition complete (prompt : string) (max_tokens : nat) : M string :=
  fun w =>
    let w' := World (llm w) (sent w ++ [prompt])%list (next_id w) in
    match llm w (List.length (sent w)) prompt with
    | Reply text => (Ok text, w')
    | Fails => (Raise OracleError, w')
    end.

(** Identity of a newly created object, as [id()] reports it.  The
    allocator never reuses an identity. *)
Definition fresh_id : M nat :=
  fun w => (Ok (next_id w), World (llm w) (sent w) (S (next_id w))).

(** [seq[i]] for a list: negative indices count from the end. *)
Definition py_index {A} (l : list A) (i : Z) : option A :=
  let n := Z.of_nat (List.length l) in
  if (0 <=? i) && (i <? n) then nth_error l (Z.to_nat i)
  else if (- n <=? i) && (i <? 0) then nth_error l (Z.to_nat (i + n))
  else None.

(* ================================================================== *)
(** ** [backend/services/claude_llm_client.py] *)

Module ClaudeLLM.

Import Render.

(** The value returned when no intent can be decoded. *)
Definition fallback_intent : pyval :=
  PyDict [("intent", PyStr "unknown");
          ("target_app", PyNone);
          ("confidence", PyFloat "0.0");
          ("entities", PyDict [])].

(** The bracket scan shared by the decoders: the text from the first
    [opening] to the last [closing], when [guard] accepts the two
    positions. *)
Definition json_start (opening : ascii) (response : string) : Z :=
  find opening response.

Definition json_end (closing : ascii) (response : string) : Z :=
  rfind closing response + 1.

Definition json_str (opening closing : ascii) (response : string) : string :=
  slice response (json_start opening response) (json_end closing response).


(** The part of [extract_intent] that follows the oracle call. *)
Definition decode_intent (response : string) : pyval :=
  let js := json_start "{" response in
  let je := json_end "}" response in
  if (0 <=? js) && (js <? je) then
    match Json.loads (slice response js je) with
    | Some v => v
    | None => fallback_intent
    end
  else fallback_intent.


Definition plan_actions_prompt (intent screen_state : pydict) : string :=
  unlines
    [ "You are planning a sequence of UI automation actions to achieve a goal."
    ; ""
    ; "User's intent:"
    ; "- Action: " +++ str (Dict.get "intent" intent)
    ; "- Target app: " +++ str (Dict.get_default "target_app" (PyStr "N/A") intent)
    ; "- Details: " +++ dumps (Dict.get_default "entities" (PyDict []) intent)
    ; ""
    ; "Current screen state:"
    ; "- Active app: " +++ str (Dict.get_default "current_app" (PyStr "unknown") screen_state)
    ; "- Visible elements: " +++ str (Dict.get_default "visible_texts" (PyList []) screen_state)
    ; "- Focused element: " +++ str (Dict.get_default "focused_element" (PyStr "N/A") screen_state)
    ; ""
    ; "Available actions:"
    ; "- open_app: Launch an application (value: package name)"
    ; "- click: Click an element (target: text or description)"
    ; "- setText: Type text into a field (value: text to type)"
    ; qq "- scroll: Scroll the screen (value: `up` or `down`)"
    ; "- find_text: Check if text is visible (target: text to find)"
    ; "- wait: Pause briefly (value: milliseconds)"
    ; "- back: Go back (Android back button)"
    ; "- home: Go to home screen"
    ; ""
    ; "Create a minimal action sequence to achieve the intent. Be specific with element names."
    ; "Respond with ONLY a JSON array, no explanation:"
    ; ""
    ; "["
    ; qq "  {`action`: `action_name`, `target`: `element text or null`, `value`: `value or null`},"
    ; "  ..."
    ; "]" ].

(** The part of [plan_actions] and of [replan_for_failure] that follows
    the oracle call. *)
Definition decode_actions (response : string) : pyval :=
  let js := json_start "[" response in
  let je := json_end "]" response in
  if (0 <=? js) && (js <? je) then
    match Json.loads (slice response js je) with
    | Some v => v
    | None => PyList []
    end
  else PyList [].

Definition plan_actions (intent screen_state : pydict) : M pyval :=
  response <- complete (plan_actions_prompt intent screen_state) 1024 ;;
  ret (decode_actions response).


(** ["YES" in response.upper()]. *)
Definition affirmative (response : string) : bool :=
  contains "YES" (upper response).


Definition replan_prompt (original_intent failed_action : pydict)
    (failure_reason : string) (current_screen_state : pydict) : string :=
  unlines
    [ "An action failed during automation. Create an alternative plan."
    ; ""
    ; "Original intent: " +++ str (Dict.get "intent" original_intent)
    ; "Failed action: " +++ str (Dict.get "action" failed_action) +++ " "
        +++ str (py_or (Dict.get "target" failed_action)
                       (Dict.get "value" failed_action))
    ; "Reason: " +++ failure_reason
    ; ""
    ; "Current screen:"
    ; "- App: " +++ str (Dict.get "current_app" current_screen_state)
    ; "- Visible: "
        +++ str (Dict.get_default "visible_texts" (PyList []) current_screen_state)
    ; ""
    ; "Alternative approach? Return JSON action array:"
    ; qq "[{`action`: `...`, `target`: `...`, `value`: `...`}, ...]" ].

Definition replan_for_failure (original_intent failed_action : pydict)
    (failure_reason : string) (current_screen_state : pydict) : M pyval :=
  response <-
    complete (replan_prompt original_intent failed_action failure_reason
                current_screen_state) 1024 ;;
  ret (decode_actions response).

(** *** [SyncClaudeLLMClient] *)

(** The fallback of the synchronous client: no confidence entry. *)
Definition fallback_intent_sync : pyval :=
  PyDict [("intent", PyStr "unknown");
          ("target_app", PyNone);
          ("entities", PyDict [])].


(** The synchronous decoders test the start position only. *)
Definition decode_intent_sync (response : string) : pyval :=
  let js := json_start "{" response in
  let je := json_end "}" response in
  if 0 <=? js then
    match Json.loads (slice response js je) with
    | Some v => v
    | None => fallback_intent_sync
    end
  else fallback_intent_sync.


Definition plan_actions_sync_prompt (intent screen_state : pydict) : string :=
  unlines
    [ "Plan UI actions for: " +++ str (Dict.get "intent" intent)
    ; "Current app: " +++ str (Dict.get "current_app" screen_state)
    ; "Visible: " +++ str (Dict.get_default "visible_texts" (PyList []) screen_state)
    ; ""
    ; "JSON array only." ].

Definition decode_actions_sync (response : string) : pyval :=
  let js := json_start "[" response in
  let je := json_end "]" response in
  if 0 <=? js then
    match Json.loads (slice response js je) with
    | Some v => v
    | None => PyList []
    end
  else PyList [].

Definition plan_actions_sync (intent screen_state : pydict) : M pyval :=
  response <- complete (plan_actions_sync_prompt intent screen_state) 1024 ;;
  ret (decode_actions_sync response).

End ClaudeLLM.

(* ================================================================== *)
(** ** [mcp-server/src/android_vision_mcp.py] *)

Module MCP.

Import Render.

(** The dataclasses.  Field types are not enforced at run time, so a
    field holds whatever the decoded JSON gave.  [oid] is the identity
    of the intent object, which [id()] reads. *)
Record UserIntent : Type := {
  oid : nat;
  intent : pyval;
  target_app : pyval;
  entities : pyval
}.

Record UIAction : Type := {
  action : pyval;
  target : pyval;
  value : pyval;
  className : pyval;
  index : pyval
}.

Record TaskPlan : Type := {
  task_id : string;
  original_intent : UserIntent;
  actions : list UIAction
}.

(** [dataclasses.asdict]. *)
Definition asdict (i : UserIntent) : pyval :=
  PyDict [("intent", intent i);
          ("target_app", target_app i);
          ("entities", entities i)].

(** *** [IntentParser] *)

Definition parse_prompt (user_input : string) : string :=
  unlines
    [ "Parse this user command into a structured intent:"
    ; ""
    ; qq "Command: `" +++ user_input +++ qq "`"
    ; ""
    ; "Return JSON with:"
    ; "- intent: what action (send_message, open_app, search, etc)"
    ; "- target_app: which app if applicable"
    ; "- entities: extracted data (contact names, messages, search terms, etc)"
    ; ""
    ; "Example:"
    ; qq "{`intent`: `send_message`, `target_app`: `WhatsApp`, `entities`: {`contact`: `Mom`, `message`: `I'm late`}}"
    ; ""
    ; "Return ONLY valid JSON." ].

Definition parse_user_input (user_input : string) : M UserIntent :=
  response <- complete (parse_prompt user_input) 1024 ;;
  match Json.loads response with
  | None => raise (ValueError ("Invalid intent format: " +++ response))
  | Some (PyDict intent_data) =>
      i <- fresh_id ;;
      ret {| oid := i;
             intent := Dict.get "intent" intent_data;
             target_app := Dict.get "target_app" intent_data;
             entities := Dict.get "entities" intent_data |}
  | Some _ => raise AttributeError
  end.

(** *** [TaskPlanner] *)

Definition plan_prompt (i : UserIntent) (current_screen_state : pydict) : string :=
  unlines
    [ "Given the user intent and current screen state, create a sequence of UI actions."
    ; ""
    ; "User Intent:"
    ; dumps_indent 2 (asdict i)
    ; ""
    ; "Current Screen:"
    ; "- App: " +++ str (Dict.get "current_app" current_screen_state)
    ; "- Visible text: " +++ str (Dict.get "visible_texts" current_screen_state)
    ; "- Focused element: " +++ str (Dict.get "focused_element" current_screen_state)
    ; ""
    ; "Available actions:"
    ; "- click: click on element by text"
    ; "- setText: set text in input field"
    ; "- scroll: scroll screen (up/down)"
    ; "- open_app: launch application by package"
    ; "- find_text: verify text exists"
    ; "- back: go back"
    ; "- home: go to home"
    ; ""
    ; "Return JSON array of actions:"
    ; "["
    ; qq "  {`action`: `open_app`, `value`: `com.whatsapp`},"
    ; qq "  {`action`: `find_text`, `target`: `Mom`},"
    ; qq "  {`action`: `click`, `target`: `Mom`},"
    ; qq "  {`action`: `setText`, `value`: `I'm late`}"
    ; "]"
    ; ""
    ; "Requirements:"
    ; "- Be specific with text targets"
    ; "- Use scroll if element not found"
    ; "- Verify each major step"
    ; "- Maximum 20 actions per task" ].

(** What [for a in actions_data] ranges over; [None] when the value is
    not iterable.  A dictionary yields its keys, a string its
    characters. *)
Fixpoint chars (s : string) : list pyval :=
  match s with
  | EmptyString => []
  | String c r => PyStr (String c EmptyString) :: chars r
  end.

Definition iterate (v : pyval) : option (list pyval) :=
  match v with
  | PyList l => Some l
  | PyDict d => Some (map (fun kv => PyStr (fst kv)) d)
  | PyStr s => Some (chars s)
  | _ => None
  end.

(** One element of the comprehension: [a["action"]] needs a
    dictionary that has the key. *)
Definition make_action (a : pyval) : result UIAction :=
  match a with
  | PyDict d =>
      match Dict.lookup "action" d with
      | None => Raise (KeyError "action")
      | Some k =>
          Ok {| action := k;
                target := Dict.get "target" d;
                value := Dict.get "value" d;
                className := Dict.get "className" d;
                index := Dict.get "index" d |}
      end
  | _ => Raise TypeError
  end.

Fixpoint make_actions (items : list pyval) : result (list UIAction) :=
  match items with
  | [] => Ok []
  | a :: rest =>
      match make_action a with
      | Raise e => Raise e
      | Ok x =>
          match make_actions rest with
          | Raise e => Raise e
          | Ok xs => Ok (x :: xs)
          end
      end
  end.

Definition plan_task (i : UserIntent) (current_screen_state : pydict)
  : M TaskPlan :=
  response <- complete (plan_prompt i current_screen_state) 1024 ;;
  let invalid := ValueError ("Invalid task plan format: " +++ response) in
  match Json.loads response with
  | None => raise invalid
  | Some actions_data =>
      match iterate actions_data with
      | None => raise TypeError
      | Some items =>
          match make_actions items with
          | Raise (KeyError _) => raise invalid
          | Raise e => raise e
          | Ok acts =>
              ret {| task_id := "task_" +++ dec (Z.of_nat (oid i));
                     original_intent := i;
                     actions := acts |}
          end
      end
  end.

(** *** [VerificationLoop] *)


(** ["YES" in response.upper()]. *)
Definition affirmative (response : string) : bool :=
  contains "YES" (upper response).


Definition replan_prompt (original_plan : TaskPlan) (failed_action : UIAction)
    (failure_reason : string) (current_screen_state : pydict) : string :=
  unlines
    [ "The action failed. Create an alternative plan."
    ; ""
    ; "Failed action: " +++ str (action failed_action) +++ " ("
        +++ str (py_or (target failed_action) (value failed_action)) +++ ")"
    ; "Reason: " +++ failure_reason
    ; ""
    ; "Current Screen:"
    ; "- App: " +++ str (Dict.get "current_app" current_screen_state)
    ; "- Visible: " +++ str (Dict.get "visible_texts" current_screen_state)
    ; ""
    ; "Original goal: " +++ str (intent (original_intent original_plan))
    ; ""
    ; "Alternative approach to achieve the goal:"
    ; "- Try scrolling first?"
    ; "- Navigate differently?"
    ; "- Use different UI path?"
    ; ""
    ; "Return new action sequence." ].

(** The source builds [replan_prompt] and then calls the planner with
    the intent and the screen only: the text is bound and not used. *)
Definition replan_after_failure (original_plan : TaskPlan)
    (failed_action_index : Z) (failure_reason : string)
    (current_screen_state : pydict) : M (option TaskPlan) :=
  match py_index (actions original_plan) failed_action_index with
  | None => raise IndexError
  | Some failed_action =>
      let _replan_prompt :=
        replan_prompt original_plan failed_action failure_reason
          current_screen_state in
      try_except
        (new_plan <- plan_task (original_intent original_plan)
                       current_screen_state ;;
         ret (Some new_plan))
        (fun _ => ret None)
  end.

(** *** [AndroidVisionMCP] *)

Definition process_user_command (user_input : string)
    (current_screen_state : pydict) : M TaskPlan :=
  i <- parse_user_input user_input ;;
  plan_task i current_screen_state.

(** [status == "..."]. *)
Definition is_str (v : pyval) (s : string) : bool :=
  match v with
  | PyStr t => String.eqb t s
  | _ => false
  end.

Definition handle_action_result (task_plan : TaskPlan) (action_index : Z)
    (action_result : pydict) (current_screen_state : pydict)
  : M (option TaskPlan) :=
  match py_index (actions task_plan) action_index with
  | None => raise IndexError
  | Some _action =>
      let status := Dict.get "status" action_result in
      if is_str status "SUCCESS" then ret (Some task_plan)
      else if is_str status "ELEMENT_NOT_FOUND" then
        replan_after_failure task_plan action_index "Element not found"
          current_screen_state
      else ret None
  end.

End MCP.

(* ================================================================== *)
(** ** [backend/app.py]: the [/api/plan] route *)

Module App.

Inductive response : Type :=
| Json200 (body : pyval)
| Error400 (msg : string)
| Error500 (e : exn).

(** A value on which [.get] is called must be a dictionary. *)
Definition as_dict (v : pyval) : M pydict :=
  match v with
  | PyDict d => ret d
  | _ => raise AttributeError
  end.

(** [plan_task()]: [data] is the request body, [timestamp] the text of
    [datetime.now().timestamp()], [created_at] that of
    [datetime.now().isoformat()], [tasks] the module-level store. *)
Definition plan_task (data : pydict) (timestamp created_at : string)
    (tasks : pydict) : M (response * pydict) :=
  let intent := Dict.get "intent" data in
  let screen_state := Dict.get "screen_state" data in
  if negb (truthy intent) || negb (truthy screen_state)
  then ret (Error400 "Missing intent or screen_state", tasks)
  else
    try_except
      (i <- as_dict intent ;;
       s <- as_dict screen_state ;;
       acts <- ClaudeLLM.plan_actions_sync i s ;;
       let task_id := "task_" +++ timestamp in
       let tasks' :=
         Dict.set task_id
           (PyDict [("intent", intent); ("actions", acts);
                    ("screen_state", screen_state);
                    ("created_at", PyStr created_at)])
           tasks in
       ret (Json200 (PyDict [("task_id", PyStr task_id); ("actions", acts)]),
            tasks'))
      (fun e => ret (Error500 e, tasks)).

End App.

(* ================================================================== *)
(** ** [backend/app.py]: the [/api/intent] and [/api/task/<task_id>] routes *)

Module Api.


(** What [get_task] answers: the stored record with status 200, or
    "Task not found" with status 404. *)
Inductive lookup_response : Type :=
| Found (record : pyval)
| NotFound.

(** [get_task(task_id)], reading the module-level store. *)
Definition get_task (task_id : string) (tasks : pydict) : lookup_response :=
  match Dict.lookup task_id tasks with
  | Some record => Found record
  | None => NotFound
  end.

End Api.

(* ================================================================== *)
(** ** Vocabulary of the properties *)


(** The action kinds listed in the data model. *)
Definition vocabulary : list string :=
  ["open_app"; "click"; "setText"; "scroll"; "find_text"; "wait"; "back"; "home"].

Definition in_vocabulary (kind : pyval) : bool :=
  match kind with
  | PyStr k => existsb (String.eqb k) vocabulary
  | _ => false
  end.


(** A position of the plan, counted from 0. *)
Definition in_range (plan : MCP.TaskPlan) (i : Z) : Prop :=
  0 <= i < Z.of_nat (List.length (MCP.actions plan)).

(** The world after one more prompt went out. *)
Definition after_prompt (w : world) (prompt : string) : world :=
  World (llm w) (sent w ++ [prompt])%list (next_id w).

(** What replanning amounts to at a valid position: one run of the
    planner on the intent of the old plan and the screen, every
    exception turned into [None]. *)
Definition replanned (plan : MCP.TaskPlan) (screen : pydict) (w : world)
  : result (option MCP.TaskPlan) * world :=
  match MCP.plan_task (MCP.original_intent plan) screen w with
  | (Ok p, w') => (Ok (Some p), w')
  | (Raise _, w') => (Ok None, w')
  end.

Module Supervisor.

(** One delivery to the supervisor: the position of the executed
    action, the executor's result, the screen observed afterwards. *)
Definition step : Type := Z * pydict * pydict.

(** A caller driving one task: each result is handed to
    [handle_action_result] together with the plan in force, and the
    plan it returns is in force for the next result.  The run ends when
    no plan comes back. *)
Fixpoint feed (steps : list step) (plan : MCP.TaskPlan) : M (option MCP.TaskPlan) :=
  match steps with
  | [] => ret (Some plan)
  | (i, res, screen) :: rest =>
      out <- MCP.handle_action_result plan i res screen ;;
      match out with
      | Some plan' => feed rest plan'
      | None => ret None
      end
  end.

Definition element_not_found (s : step) : Prop :=
  Dict.get "status" (snd (fst s)) = PyStr "ELEMENT_NOT_FOUND".

(** Calls of the planner made between two worlds: every call of
    [plan_task] sends one prompt, and the supervisor sends no other. *)
Definition planner_calls (before after : world) : nat :=
  List.length (sent after) - List.length (sent before).

End Supervisor.

(* ================================================================== *)
(** ** Concrete inputs *)

Module Scenario.

Definition chat_screen : pydict :=
  [("visible_texts", PyList [PyStr "Chats"; PyStr "Status"; PyStr "Calls"])].

Definition launcher_screen : pydict :=
  [("current_app", PyStr "com.android.launcher");
   ("visible_texts", PyList [PyStr "WhatsApp"; PyStr "Messaging"; PyStr "Settings"])].

Definition mom_intent : MCP.UserIntent :=
  {| MCP.oid := 0;
     MCP.intent := PyStr "send_message";
     MCP.target_app := PyStr "WhatsApp";
     MCP.entities := PyDict [("recipient", PyStr "Mom");
                             ("message", PyStr "I'll be late")] |}.

Definition act (kind : string) (target value : pyval) : MCP.UIAction :=
  {| MCP.action := PyStr kind; MCP.target := target; MCP.value := value;
     MCP.className := PyNone; MCP.index := PyNone |}.

(** Open the messenger, then click on the contact. *)
Definition contact_plan (contact : string) : MCP.TaskPlan :=
  {| MCP.task_id := "task_0";
     MCP.original_intent := mom_intent;
     MCP.actions := [act "open_app" PyNone (PyStr "com.whatsapp");
                     act "click" (PyStr contact) PyNone] |}.

Definition mom_plan : MCP.TaskPlan := contact_plan "Mom".

Definition element_not_found : pydict := [("status", PyStr "ELEMENT_NOT_FOUND")].

(** An oracle that gives the same answer to every prompt. *)
Definition always (text : string) : world :=
  World (fun _ _ => Reply text) [] 0.

Definition scroll_then_click : string :=
  qq "[{`action`: `scroll`, `value`: `down`}, {`action`: `click`, `target`: `Mom`}]".

Definition refusal : string := "I cannot help with that.".

Definition fly : string := qq "[{`action`: `fly`, `target`: `moon`}]".



Definition utterance : string := "Send a message to Mom saying I'll be late".

(** One session with the oracle: the first answer is the intent, every
    later one a plan. *)
Definition intent_answer : string :=
  qq "{`intent`: `send_message`, `target_app`: `WhatsApp`, `entities`: {`contact`: `Mom`}}".

Definition session : world :=
  World (fun n _ => match n with
                    | O => Reply intent_answer
                    | S _ => Reply scroll_then_click
                    end) [] 0.

End Scenario.

(** The oracle's answer to the next prompt. *)
Definition answers (w : world) (prompt response : string) : Prop :=
  llm w (List.length (sent w)) prompt = Reply response.

(** An element of the decoded array that the planner can turn into an
    action: a dictionary with an "action" entry. *)
Definition has_action (a : pyval) : Prop :=
  exists d k, a = PyDict d /\ Dict.lookup "action" d = Some k.

(** [x] is the element [a] carried over as it stands: its kind is the
    "action" entry of [a], whatever that is, and its other fields are
    those of [a]. *)
Definition forwarded (a : pyval) (x : MCP.UIAction) : Prop :=
  exists d,
    a = PyDict d
    /\ Dict.lookup "action" d = Some (MCP.action x)
    /\ MCP.target x = Dict.get "target" d
    /\ MCP.value x = Dict.get "value" d
    /\ MCP.className x = Dict.get "className" d
    /\ MCP.index x = Dict.get "index" d.

(** A response made of a bracketed text between two stretches of
    prose. *)
Definition embedded (opening closing : ascii) (pre body post : string) : string :=
  pre +++ (String opening body +++ String closing "") +++ post.


(** An oracle whose every call fails. *)
Definition silent : world := World (fun _ _ => Fails) [] 0.

(** A plan whose identifier is the one [plan_task] gives for its
    intent. *)
Definition planner_made (plan : MCP.TaskPlan) : Prop :=
  MCP.task_id plan
  = "task_" +++ dec (Z.of_nat (MCP.oid (MCP.original_intent plan))).

(* ================================================================== *)
(** * Properties *)

(** ** Text lemmas *)

Section TextFacts.

Lemma len_nonneg (s : string) : 0 <= len s.
Proof. unfold len. lia. Qed.

Lemma len_cons (c : ascii) (s : string) : len (String c s) = len s + 1.
Proof. unfold len. cbn [String.length]. lia. Qed.

Lemma len_append (s t : string) : len (s +++ t) = len s + len t.
Proof.
  induction s as [|c s IH]; cbn [String.append].
  - unfold len. cbn. lia.
  - rewrite !len_cons, IH. lia.
Qed.

Lemma find_range (c : ascii) (s : string) : -1 <= find c s < len s \/ (find c s = -1 /\ s = "").
Proof.
  induction s as [|d s IH]; cbn [find].
  - right. split; reflexivity.
  - left. rewrite len_cons. pose proof (len_nonneg s).
    destruct (Ascii.eqb d c); [lia|].
    destruct (find c s <? 0) eqn:E; [lia|].
    apply Z.ltb_ge in E. destruct IH as [IH|[IH _]]; lia.
Qed.

Lemma find_lower (c : ascii) (s : string) : -1 <= find c s.
Proof. destruct (find_range c s) as [H|[H _]]; lia. Qed.

Lemma rfind_range (c : ascii) (s : string) : -1 <= rfind c s < Z.max 0 (len s).
Proof.
  induction s as [|d s IH]; cbn [rfind].
  - unfold len. cbn. lia.
  - rewrite len_cons. pose proof (len_nonneg s).
    destruct (0 <=? rfind c s) eqn:E.
    + apply Z.leb_le in E. lia.
    + destruct (Ascii.eqb d c); lia.
Qed.

(** The first [c] of [pre ++ c :: rest] is right after [pre] when
    [pre] has none. *)
Lemma find_skip (c : ascii) (pre rest : string) :
  find c pre = -1 -> find c (pre +++ String c rest) = len pre.
Proof.
  induction pre as [|d pre IH]; cbn [find String.append]; intros H.
  - rewrite Ascii.eqb_refl. reflexivity.
  - rewrite len_cons. pose proof (len_nonneg pre).
    destruct (Ascii.eqb d c); [discriminate|].
    destruct (find c pre <? 0) eqn:E.
    + apply Z.ltb_lt in E. pose proof (find_lower c pre).
      rewrite IH by lia.
      destruct (len pre <? 0) eqn:E'; [apply Z.ltb_lt in E'; lia | reflexivity].
    + apply Z.ltb_ge in E. lia.
Qed.

(** The last [c] of [a ++ b] is that of [b] when there is one there,
    and that of [a] otherwise. *)
Lemma rfind_append (c : ascii) (a b : string) :
  rfind c (a +++ b) =
  if 0 <=? rfind c b then len a + rfind c b else rfind c a.
Proof.
  induction a as [|d a IH]; cbn [rfind String.append].
  - destruct (0 <=? rfind c b) eqn:E.
    + unfold len. cbn. lia.
    + apply Z.leb_gt in E. pose proof (rfind_range c b). lia.
  - rewrite IH, len_cons. pose proof (len_nonneg a).
    destruct (0 <=? rfind c b) eqn:E.
    + apply Z.leb_le in E.
      destruct (0 <=? len a + rfind c b) eqn:E'; [lia|].
      apply Z.leb_gt in E'. lia.
    + reflexivity.
Qed.

Lemma rfind_last (c : ascii) (body : string) :
  rfind c (body +++ String c "") = len body.
Proof.
  rewrite rfind_append. cbn [rfind]. rewrite Ascii.eqb_refl. cbn. lia.
Qed.

Lemma drop_append (pre s : string) : drop (String.length pre) (pre +++ s) = s.
Proof. induction pre as [|c pre IH]; cbn; auto. Qed.

Lemma take_append (s t : string) : take (String.length s) (s +++ t) = s.
Proof. induction s as [|c s IH]; cbn; [destruct t|]; congruence. Qed.

(** Slicing a middle part back out. *)
Lemma slice_middle (pre mid post : string) :
  slice (pre +++ mid +++ post) (len pre) (len pre + len mid) = mid.
Proof.
  unfold slice, clamp. rewrite !len_append.
  pose proof (len_nonneg pre). pose proof (len_nonneg mid).
  pose proof (len_nonneg post).
  destruct (len pre <? 0) eqn:E1; [apply Z.ltb_lt in E1; lia|].
  destruct (len pre + len mid <? 0) eqn:E2; [apply Z.ltb_lt in E2; lia|].
  replace (Z.max 0 (Z.min (len pre) (len pre + (len mid + len post))))
    with (len pre) by lia.
  replace (Z.max 0 (Z.min (len pre + len mid) (len pre + (len mid + len post)))
           - len pre) with (len mid) by lia.
  unfold len. rewrite !Nat2Z.id, drop_append, take_append. reflexivity.
Qed.

(** A slice whose end is not after its start is empty. *)
Lemma slice_empty (s : string) (a b : Z) : 0 <= a -> 0 <= b <= a -> slice s a b = "".
Proof.
  intros Ha Hb. unfold slice, clamp.
  destruct (a <? 0) eqn:E1; [apply Z.ltb_lt in E1; lia|].
  destruct (b <? 0) eqn:E2; [apply Z.ltb_lt in E2; lia|].
  replace (Z.to_nat _) with O by lia. reflexivity.
Qed.

End TextFacts.

(* ================================================================== *)
(** ** The decoder's fuel *)

Import Json.

Section ParserFuel.

Local Open Scope nat_scope.

Lemma skip_ws_le (s : string) : String.length (skip_ws s) <= String.length s.
Proof.
  induction s as [|c s IH]; cbn [skip_ws]; [lia|].
  destruct (is_ws c); cbn [String.length]; lia.
Qed.

Lemma drop_le (n : nat) (s : string) : String.length (drop n s) <= String.length s.
Proof.
  revert s. induction n as [|n IH]; intros [|c s]; cbn [drop String.length]; try lia.
  specialize (IH s). lia.
Qed.

Lemma starts_with_drop (p s : string) :
  starts_with p s = true -> String.length (drop (String.length p) s) + String.length p = String.length s.
Proof.
  revert s. induction p as [|a p IH]; intros s H; cbn [String.length drop]; [lia|].
  destruct s as [|b s]; cbn [starts_with] in H; [discriminate|].
  apply andb_true_iff in H. destruct H as [_ H]. specialize (IH s H).
  cbn [String.length]. lia.
Qed.

Lemma span_digits_length (s ds r : string) :
  span_digits s = (ds, r) -> String.length ds + String.length r = String.length s.
Proof.
  revert ds r. induction s as [|c s IH]; intros ds r H; cbn [span_digits] in H.
  - injection H as <- <-. reflexivity.
  - destruct (is_digit c).
    + destruct (span_digits s) as [ds' r'] eqn:E. injection H as <- <-.
      specialize (IH _ _ eq_refl). cbn [String.length]. lia.
    + injection H as <- <-. reflexivity.
Qed.

Lemma hex4_length (s r : string) (n : N) :
  Json.hex4 s = Some (n, r) -> String.length s = 4 + String.length r.
Proof.
  unfold Json.hex4. destruct s as [|a [|b [|c [|d s]]]]; try discriminate.
  destruct (hex_val a), (hex_val b), (hex_val c), (hex_val d); try discriminate.
  intros H. injection H as _ <-. reflexivity.
Qed.

Lemma unicode_escape_shorter (s ch r : string) :
  unicode_escape s = Some (ch, r) -> String.length r < String.length s.
Proof.
  unfold unicode_escape. destruct (Json.hex4 s) as [[u r1]|] eqn:E; [|discriminate].
  apply hex4_length in E.
  destruct (_ && starts_with "\u" r1).
  - destruct (Json.hex4 (drop 2 r1)) as [[u2 r2]|] eqn:E2; [|discriminate].
    apply hex4_length in E2. pose proof (drop_le 2 r1).
    destruct (_ && _); intros K; injection K as _ <-; lia.
  - intros K. injection K as _ <-. lia.
Qed.

Lemma scanstring_shorter (f : nat) :
  forall acc s x r, scanstring f acc s = Some (x, r) -> String.length r < String.length s.
Proof.
  induction f as [|f IH]; intros acc s x r H; cbn [scanstring] in H; [discriminate|].
  destruct s as [|c s]; [discriminate|]. cbn [String.length].
  destruct (Ascii.eqb c dq); [injection H as _ <-; lia|].
  destruct (Ascii.eqb c "\").
  - destruct s as [|e s']; [discriminate|]. cbn [String.length].
    repeat match type of H with
           | (if ?b then _ else _) = _ =>
               destruct b; [try (apply IH in H; lia)|]
           end; [|discriminate].
    destruct (unicode_escape s') as [[ch r'']|] eqn:U; [|discriminate].
    apply unicode_escape_shorter in U. apply IH in H. lia.
  - destruct (_ <? 32); [discriminate|]. apply IH in H. lia.
Qed.

Lemma scanstring_fuel (f : nat) :
  forall acc s, String.length s <= f -> scanstring f acc s = scanstring (S f) acc s.
Proof.
  induction f as [|f IH]; intros acc s L.
  - destruct s; [reflexivity | cbn in L; lia].
  - destruct s as [|c s]; [reflexivity|]. cbn [String.length] in L.
    cbn [scanstring].
    destruct (Ascii.eqb c dq); [reflexivity|].
    destruct (Ascii.eqb c "\").
    + destruct s as [|e s']; [reflexivity|]. cbn [String.length] in L. cbv zeta.
      repeat match goal with
             | |- (if ?b then _ else _) = _ =>
                 destruct b; [apply IH; lia|]
             end.
      destruct (Ascii.eqb e "u"); [|reflexivity].
      destruct (unicode_escape s') as [[ch r'']|] eqn:U; [|reflexivity].
      apply unicode_escape_shorter in U. apply IH. lia.
    + destruct (_ <? 32); [reflexivity|]. apply IH. lia.
Qed.


Lemma next_is_length (c : ascii) (s r : string) :
  next_is c s = Some r -> String.length s = S (String.length r).
Proof.
  unfold next_is. destruct s as [|d s]; [discriminate|].
  destruct (Ascii.eqb d c); [|discriminate]. intros H. injection H as <-. reflexivity.
Qed.

Lemma span_digits_nonempty (s ds r : string) :
  span_digits s = (ds, r) -> ds <> "" -> String.length r < String.length s.
Proof.
  intros E N. apply span_digits_length in E.
  destruct ds; [congruence|]. cbn [String.length] in E. lia.
Qed.

Lemma match_integer_shorter (s i r : string) :
  match_integer s = Some (i, r) -> String.length r < String.length s.
Proof.
  unfold match_integer.
  destruct (match next_is "-" s with
            | Some r0 => ("-", r0)
            | None => ("", s)
            end) as [sign body] eqn:B.
  assert (L : String.length body <= String.length s).
  { destruct (next_is "-" s) as [r0|] eqn:E; injection B as _ <-; [|lia].
    apply next_is_length in E. lia. }
  destruct (next_is "0" body) as [r0|] eqn:Z.
  - intros H. injection H as _ <-. apply next_is_length in Z. lia.
  - destruct (span_digits body) as [ds r0] eqn:E.
    destruct (String.eqb ds "") eqn:N; [discriminate|].
    intros H. injection H as _ <-. apply String.eqb_neq in N.
    pose proof (span_digits_nonempty _ _ _ E N). lia.
Qed.

Lemma match_frac_le (s f r : string) :
  match_frac s = (f, r) -> String.length r <= String.length s.
Proof.
  unfold match_frac. destruct (next_is "." s) as [r0|] eqn:E;
    [|intros H; injection H as _ <-; lia].
  apply next_is_length in E.
  destruct (span_digits r0) as [ds r'] eqn:D. apply span_digits_length in D.
  destruct (String.eqb ds ""); intros H; injection H as _ <-; lia.
Qed.

Lemma match_exp_le (s e r : string) :
  match_exp s = (e, r) -> String.length r <= String.length s.
Proof.
  unfold match_exp. destruct s as [|c s]; [intros H; injection H as _ <-; lia|].
  destruct (_ || _); [|intros H; injection H as _ <-; lia].
  destruct (match next_is "+" s, next_is "-" s with
            | Some r1, _ => ("+", r1)
            | None, Some r1 => ("-", r1)
            | None, None => ("", s)
            end) as [sign r1] eqn:Es.
  assert (L1 : String.length r1 <= String.length s).
  { destruct (next_is "+" s) as [x|] eqn:P.
    - injection Es as _ <-. apply next_is_length in P. lia.
    - destruct (next_is "-" s) as [x|] eqn:M; injection Es as _ <-; [|lia].
      apply next_is_length in M. lia. }
  destruct (span_digits r1) as [ds r2] eqn:E. apply span_digits_length in E.
  destruct (String.eqb ds ""); intros H; injection H as _ <-;
    cbn [String.length]; lia.
Qed.

Lemma match_number_shorter (s r : string) (v : pyval) :
  match_number s = Some (v, r) -> String.length r < String.length s.
Proof.
  unfold match_number.
  destruct (match_integer s) as [[i r0]|] eqn:I; [|discriminate].
  apply match_integer_shorter in I.
  destruct (match_frac r0) as [f r1] eqn:F. apply match_frac_le in F.
  destruct (match_exp r1) as [e r2] eqn:X. apply match_exp_le in X.
  destruct (_ && _); intros H; injection H as _ <-; lia.
Qed.

Lemma literal_shorter (word s r : string) (v v' : pyval) :
  word <> "" -> literal word v s = Some (v', r) ->
  String.length r < String.length s.
Proof.
  unfold literal. intros N. destruct (starts_with word s) eqn:E; [|discriminate].
  intros H. injection H as _ <-. apply starts_with_drop in E.
  destruct word; [congruence|]. cbn [String.length] in *. lia.
Qed.

(** What the decoder returns is a value and the text after it, which is
    shorter than the text it was given. *)
Lemma decoder_consumes (f : nat) :
  (forall s v r, scan_once f s = Some (v, r) -> String.length r < String.length s)
  /\ (forall acc s v r,
        parse_array f acc s = Some (v, r) -> String.length r < String.length s)
  /\ (forall acc s v r,
        parse_object f acc s = Some (v, r) -> String.length r < String.length s).
Proof.
  induction f as [|f (IHs & IHa & IHo)]; [repeat split; discriminate|].
  repeat split.
  - intros s v r H. cbn [scan_once] in H.
    destruct s as [|c s]; [discriminate|].
    destruct (Ascii.eqb c dq).
    { destruct (scanstring _ _ _) as [[x r']|] eqn:E; [|discriminate].
      injection H as _ <-. apply scanstring_shorter in E. cbn [String.length]. lia. }
    destruct (Ascii.eqb c "{").
    { cbv zeta in H. pose proof (skip_ws_le s).
      destruct (next_is "}" (skip_ws s)) as [r'|] eqn:E.
      - injection H as _ <-. apply next_is_length in E. cbn [String.length]. lia.
      - apply IHo in H. cbn [String.length]. lia. }
    destruct (Ascii.eqb c "[").
    { cbv zeta in H. pose proof (skip_ws_le s).
      destruct (next_is "]" (skip_ws s)) as [r'|] eqn:E.
      - injection H as _ <-. apply next_is_length in E. cbn [String.length]. lia.
      - apply IHa in H. cbn [String.length]. lia. }
    repeat match type of H with
           | (if ?b then _ else _) = _ =>
               destruct b; [apply literal_shorter in H; [exact H|discriminate]|]
           end.
    destruct (match_number (String c s)) as [[v' r']|] eqn:E.
    { injection H as _ <-. exact (match_number_shorter _ _ _ E). }
    repeat match type of H with
           | (if ?b then _ else _) = _ =>
               destruct b; [apply literal_shorter in H; [exact H|discriminate]|]
           end.
    apply literal_shorter in H; [exact H|discriminate].
  - intros acc s v r H. cbn [parse_array] in H.
    destruct (scan_once f s) as [[x r0]|] eqn:E; [|discriminate].
    apply IHs in E. cbv zeta in H. pose proof (skip_ws_le r0).
    destruct (next_is "]" (skip_ws r0)) as [r'|] eqn:E1.
    + injection H as _ <-. apply next_is_length in E1. lia.
    + destruct (next_is "," (skip_ws r0)) as [r'|] eqn:E2; [|discriminate].
      apply next_is_length in E2. apply IHa in H. pose proof (skip_ws_le r'). lia.
  - intros acc s v r H. cbn [parse_object] in H.
    destruct (next_is dq s) as [r0|] eqn:Q; [|discriminate].
    apply next_is_length in Q.
    destruct (scanstring _ _ _) as [[key r1]|] eqn:K; [|discriminate].
    apply scanstring_shorter in K. pose proof (skip_ws_le r1).
    destruct (next_is ":" (skip_ws r1)) as [r2|] eqn:C; [|discriminate].
    apply next_is_length in C. pose proof (skip_ws_le r2).
    destruct (scan_once f (skip_ws r2)) as [[x r3]|] eqn:E; [|discriminate].
    apply IHs in E. cbv zeta in H. pose proof (skip_ws_le r3).
    destruct (next_is "}" (skip_ws r3)) as [r'|] eqn:E1.
    + injection H as _ <-. apply next_is_length in E1. lia.
    + destruct (next_is "," (skip_ws r3)) as [r'|] eqn:E2; [|discriminate].
      apply next_is_length in E2. apply IHo in H. pose proof (skip_ws_le r'). lia.
Qed.

(** One more unit of fuel changes nothing once there is twice the
    length of the text. *)
Lemma decoder_fuel (f : nat) :
  (forall s, 2 * String.length s + 1 <= f -> scan_once f s = scan_once (S f) s)
  /\ (forall acc s, 2 * String.length s + 2 <= f ->
        parse_array f acc s = parse_array (S f) acc s)
  /\ (forall acc s, 2 * String.length s + 2 <= f ->
        parse_object f acc s = parse_object (S f) acc s).
Proof.
  induction f as [|f (IHs & IHa & IHo)]; [repeat split; intros; lia|].
  repeat split.
  - intros s L. cbn [scan_once].
    destruct s as [|c s]; [reflexivity|]. cbn [String.length] in L.
    destruct (Ascii.eqb c dq); [reflexivity|]. pose proof (skip_ws_le s).
    destruct (Ascii.eqb c "{").
    { cbv zeta. destruct (next_is "}" (skip_ws s)); [reflexivity|]. apply IHo. lia. }
    destruct (Ascii.eqb c "[").
    { cbv zeta. destruct (next_is "]" (skip_ws s)); [reflexivity|]. apply IHa. lia. }
    reflexivity.
  - intros acc s L. cbn [parse_array]. rewrite <- (IHs s) by lia.
    destruct (scan_once f s) as [[x r0]|] eqn:E; [|reflexivity].
    apply (proj1 (decoder_consumes f)) in E. cbv zeta. pose proof (skip_ws_le r0).
    destruct (next_is "]" (skip_ws r0)); [reflexivity|].
    destruct (next_is "," (skip_ws r0)) as [r'|] eqn:E2; [|reflexivity].
    apply next_is_length in E2. pose proof (skip_ws_le r'). apply IHa. lia.
  - intros acc s L. cbn [parse_object].
    destruct (next_is dq s) as [r0|] eqn:Q; [|reflexivity].
    apply next_is_length in Q.
    destruct (scanstring _ _ _) as [[key r1]|] eqn:K; [|reflexivity].
    apply scanstring_shorter in K. pose proof (skip_ws_le r1).
    destruct (next_is ":" (skip_ws r1)) as [r2|] eqn:C; [|reflexivity].
    apply next_is_length in C. pose proof (skip_ws_le r2).
    rewrite <- (IHs (skip_ws r2)) by lia.
    destruct (scan_once f (skip_ws r2)) as [[x r3]|] eqn:E; [|reflexivity].
    apply (proj1 (decoder_consumes f)) in E. cbv zeta. pose proof (skip_ws_le r3).
    destruct (next_is "}" (skip_ws r3)); [reflexivity|].
    destruct (next_is "," (skip_ws r3)) as [r'|] eqn:E2; [|reflexivity].
    apply next_is_length in E2. pose proof (skip_ws_le r'). apply IHo. lia.
Qed.

(** [json.loads] does not depend on the fuel it starts with, as long as
    there is at least what [loads] takes. *)
Lemma loads_fuel_independent (s : string) (f : nat) :
  2 * String.length s + 2 <= f ->
  scan_once f (skip_ws s) = scan_once (2 * String.length s + 2) (skip_ws s).
Proof.
  intros L. induction L as [|f L IH]; [reflexivity|].
  rewrite <- IH. symmetry. apply (proj1 (decoder_fuel f)).
  pose proof (skip_ws_le s). lia.
Qed.

(** The fuel of [scanstring] likewise. *)
Lemma scanstring_fuel_independent (s acc : string) (f : nat) :
  String.length s <= f ->
  scanstring f acc s = scanstring (String.length s) acc s.
Proof.
  intros L. induction L as [|f L IH]; [reflexivity|].
  rewrite <- IH. symmetry. apply scanstring_fuel, L.
Qed.

End ParserFuel.

(* ================================================================== *)
(** ** The outcome verifier *)

Section Verifier.








End Verifier.



(* ================================================================== *)
(** ** The supervisor: [handle_action_result] and [replan_after_failure] *)

Section SupervisorFacts.

Lemma py_index_in_range {A} (l : list A) (i : Z) :
  0 <= i < Z.of_nat (List.length l) -> exists a, py_index l i = Some a.
Proof.
  intros H. unfold py_index.
  destruct (0 <=? i) eqn:E1; [|apply Z.leb_gt in E1; lia].
  destruct (i <? Z.of_nat (List.length l)) eqn:E2; [|apply Z.ltb_ge in E2; lia].
  cbn [andb]. destruct (nth_error l (Z.to_nat i)) eqn:E; [eauto|].
  apply nth_error_None in E. lia.
Qed.


(** Every run of the planner sends exactly its own prompt. *)
Lemma plan_task_sends (i : MCP.UserIntent) (screen : pydict) (w : world) :
  snd (MCP.plan_task i screen w) = after_prompt w (MCP.plan_prompt i screen).
Proof.
  unfold MCP.plan_task, bind, complete, raise, ret, after_prompt.
  destruct (llm w _ _) as [response|]; [|reflexivity].
  destruct (Json.loads response) as [data|]; [|reflexivity].
  destruct (MCP.iterate data) as [items|]; [|reflexivity].
  destruct (MCP.make_actions items) as [acts|[]]; reflexivity.
Qed.

Lemma replan_after_failure_in_range
    (plan : MCP.TaskPlan) (i : Z) (reason : string) (screen : pydict) (w : world) :
  in_range plan i ->
  MCP.replan_after_failure plan i reason screen w = replanned plan screen w.
Proof.
  intros H. unfold MCP.replan_after_failure, replanned.
  destruct (py_index_in_range _ _ H) as [a ->].
  unfold try_except, bind, ret.
  destruct (MCP.plan_task _ _ _) as [[p|e] w']; reflexivity.
Qed.

Lemma replanned_sends (plan : MCP.TaskPlan) (screen : pydict) (w : world) :
  snd (replanned plan screen w)
  = after_prompt w (MCP.plan_prompt (MCP.original_intent plan) screen).
Proof.
  unfold replanned. rewrite <- plan_task_sends.
  destruct (MCP.plan_task _ _ _) as [[p|e] w']; reflexivity.
Qed.

Lemma replanned_returns (plan : MCP.TaskPlan) (screen : pydict) (w : world) :
  exists out, fst (replanned plan screen w) = Ok out.
Proof.
  unfold replanned.
  destruct (MCP.plan_task _ _ _) as [[p|e] w']; cbn [fst]; eauto.
Qed.

Lemma handle_element_not_found
    (plan : MCP.TaskPlan) (i : Z) (res screen : pydict) (w : world) :
  in_range plan i ->
  Dict.get "status" res = PyStr "ELEMENT_NOT_FOUND" ->
  MCP.handle_action_result plan i res screen w = replanned plan screen w.
Proof.
  intros H E. unfold MCP.handle_action_result.
  destruct (py_index_in_range _ _ H) as [a Ha]. rewrite Ha, E. cbn [MCP.is_str].
  change (String.eqb "ELEMENT_NOT_FOUND" "SUCCESS") with false.
  change (String.eqb "ELEMENT_NOT_FOUND" "ELEMENT_NOT_FOUND") with true.
  cbv iota. apply replan_after_failure_in_range, H.
Qed.

(** A handler that returned had a valid position to look at. *)
Lemma handle_returns_indexed
    (plan : MCP.TaskPlan) (i : Z) (res screen : pydict) (w w' : world)
    (out : option MCP.TaskPlan) :
  MCP.handle_action_result plan i res screen w = (Ok out, w') ->
  exists a, py_index (MCP.actions plan) i = Some a.
Proof.
  unfold MCP.handle_action_result.
  destruct (py_index (MCP.actions plan) i) as [a|]; [eauto|discriminate].
Qed.

(** Replanning does not look at the failed action nor at the reason. *)
Lemma replan_ignores_failure
    (plan : MCP.TaskPlan) (i j : Z) (reason reason' : string)
    (screen : pydict) (w : world) :
  in_range plan i -> in_range plan j ->
  MCP.replan_after_failure plan i reason screen w
  = MCP.replan_after_failure plan j reason' screen w.
Proof.
  intros Hi Hj. rewrite !replan_after_failure_in_range by assumption. reflexivity.
Qed.

End SupervisorFacts.



Section Replacement.


End Replacement.




Section Runs.

Lemma feed_sends (steps : list Supervisor.step) :
  forall (plan : MCP.TaskPlan) (w w' : world) (out : MCP.TaskPlan),
    Forall Supervisor.element_not_found steps ->
    Supervisor.feed steps plan w = (Ok (Some out), w') ->
    List.length (sent w') = (List.length (sent w) + List.length steps)%nat.
Proof.
  induction steps as [|[[i res] screen] rest IH]; intros plan w w' out F R.
  - cbn in R. injection R as _ <-. cbn. lia.
  - inversion F as [|? ? E F']; subst. unfold Supervisor.element_not_found in E.
    cbn [fst snd] in E. cbn [Supervisor.feed] in R. unfold bind in R.
    destruct (MCP.handle_action_result plan i res screen w) as [[o|e] w1] eqn:H;
      [|discriminate].
    destruct (handle_returns_indexed _ _ _ _ _ _ _ H) as [a Ha].
    assert (Hw : w1 = after_prompt w
                        (MCP.plan_prompt (MCP.original_intent plan) screen)).
    { unfold MCP.handle_action_result in H. rewrite Ha, E in H.
      cbn [MCP.is_str] in H.
      change (String.eqb "ELEMENT_NOT_FOUND" "SUCCESS") with false in H.
      change (String.eqb "ELEMENT_NOT_FOUND" "ELEMENT_NOT_FOUND") with true in H.
      cbv iota in H. unfold MCP.replan_after_failure in H. rewrite Ha in H.
      unfold try_except, bind, ret in H.
      pose proof (plan_task_sends (MCP.original_intent plan) screen w) as S.
      destruct (MCP.plan_task _ _ _) as [[p|e] w2]; cbn [snd] in S;
        injection H as _ <-; exact S. }
    destruct o as [plan'|]; [|discriminate].
    rewrite (IH _ _ _ _ F' R). subst w1. unfold after_prompt. cbn [sent].
    rewrite length_app. cbn. lia.
Qed.

End Runs.

(** C1, as the code has it.  The supervisor keeps no count of replans
    and has no limit: along a run in which every result has status
    ELEMENT_NOT_FOUND and every one obtains a plan, the planner is
    called once per result, however many there are. *)
Theorem planner_called_once_per_element_not_found
    (steps : list Supervisor.step) (plan out : MCP.TaskPlan) (w w' : world) :
  Forall Supervisor.element_not_found steps ->
  Supervisor.feed steps plan w = (Ok (Some out), w') ->
  Supervisor.planner_calls w w' = List.length steps.
Proof.
  intros F R. unfold Supervisor.planner_calls.
  rewrite (feed_sends steps plan w w' out F R). lia.
Qed.

(** C1 fails as stated: with the limit at its default of 3, a fourth
    ELEMENT_NOT_FOUND in a row is answered by a fourth call of the
    planner and a fourth replacement plan. *)
Lemma fourth_replan_happens :
  exists out w',
    Supervisor.feed
      (repeat (1, Scenario.element_not_found, Scenario.chat_screen) 4)
      Scenario.mom_plan (Scenario.always Scenario.scroll_then_click)
    = (Ok (Some out), w')
    /\ Supervisor.planner_calls (Scenario.always Scenario.scroll_then_click) w'
       = 4%nat
    /\ (3 < Supervisor.planner_calls
              (Scenario.always Scenario.scroll_then_click) w')%nat.
Proof.
  eexists _, _. split; [vm_compute; reflexivity|].
  split; [vm_compute; reflexivity | vm_compute; lia].
Qed.

Lemma planner_called_once_per_element_not_found_witness :
  exists out w',
    Supervisor.feed
      (repeat (1, Scenario.element_not_found, Scenario.chat_screen) 4)
      Scenario.mom_plan (Scenario.always Scenario.scroll_then_click)
    = (Ok (Some out), w')
    /\ Supervisor.planner_calls (Scenario.always Scenario.scroll_then_click) w'
       = 4%nat.
Proof.
  eexists _, _. split; [vm_compute; reflexivity|].
  eapply (planner_called_once_per_element_not_found
            (repeat (1, Scenario.element_not_found, Scenario.chat_screen) 4)
            Scenario.mom_plan _ (Scenario.always Scenario.scroll_then_click)).
  - repeat constructor.
  - vm_compute. reflexivity.
Defined.

(** C3, on the MCP path.  The click on "Mom" (resp. on "Dad") is
    reported ELEMENT_NOT_FOUND on the chat screen.  The one prompt that
    reaches the oracle is the planning prompt for the intent and the
    screen; the reason "Element not found" is nowhere in it, and a
    target other than the one the template happens to quote is not
    either. *)
Theorem replanning_prompt_lacks_failure_context :
  (exists p w',
     MCP.handle_action_result Scenario.mom_plan 1 Scenario.element_not_found
       Scenario.chat_screen (Scenario.always Scenario.scroll_then_click)
     = (Ok (Some p), w')
     /\ sent w' = [MCP.plan_prompt Scenario.mom_intent Scenario.chat_screen])
  /\ contains "Element not found"
       (MCP.plan_prompt Scenario.mom_intent Scenario.chat_screen) = false
  /\ (exists p w',
        MCP.handle_action_result (Scenario.contact_plan "Dad") 1
          Scenario.element_not_found Scenario.chat_screen
          (Scenario.always Scenario.scroll_then_click)
        = (Ok (Some p), w')
        /\ sent w' = [MCP.plan_prompt Scenario.mom_intent Scenario.chat_screen])
  /\ contains "Dad"
       (MCP.plan_prompt Scenario.mom_intent Scenario.chat_screen) = false.
Proof.
  split; [eexists _, _; split; vm_compute; reflexivity|].
  split; [vm_compute; reflexivity|].
  split; [eexists _, _; split; vm_compute; reflexivity|].
  vm_compute; reflexivity.
Qed.

(* ================================================================== *)
(** ** The REST replanner *)

Section RestReplan.

Lemma append_assoc (a b c : string) : (a +++ b) +++ c = a +++ b +++ c.
Proof. induction a as [|x a IH]; cbn [String.append]; congruence. Qed.

Lemma contains_unfold (x s : string) :
  contains x s
  = starts_with x s
    || match s with
       | EmptyString => false
       | String _ r => contains x r
       end.
Proof. destruct s; reflexivity. Qed.

Lemma starts_with_append (x b : string) : starts_with x (x +++ b) = true.
Proof.
  induction x as [|c x IH]; cbn [String.append starts_with]; [reflexivity|].
  rewrite Ascii.eqb_refl. exact IH.
Qed.

Lemma contains_here (x b : string) : contains x (x +++ b) = true.
Proof. rewrite contains_unfold, starts_with_append. reflexivity. Qed.

Lemma contains_after (x a s : string) :
  contains x s = true -> contains x (a +++ s) = true.
Proof.
  intros H. induction a as [|c a IH]; cbn [String.append]; [exact H|].
  rewrite contains_unfold, IH. apply orb_true_r.
Qed.

Lemma contains_empty (s : string) : contains "" s = true.
Proof. rewrite contains_unfold. destruct s; reflexivity. Qed.

(** The sibling of [replan_after_failure] in the REST client does send
    the failure context: its prompt quotes the target of the failed
    action and the reason. *)
Lemma rest_replan_prompt_has_failure_context
    (original_intent failed_action : pydict) (failure_reason target : string)
    (screen : pydict) (w : world) :
  Dict.get "target" failed_action = PyStr target ->
  let prompt :=
    ClaudeLLM.replan_prompt original_intent failed_action failure_reason screen in
  snd (ClaudeLLM.replan_for_failure original_intent failed_action
         failure_reason screen w) = after_prompt w prompt
  /\ contains target prompt = true
  /\ contains failure_reason prompt = true.
Proof.
  intros T prompt. split; [|split].
  - unfold ClaudeLLM.replan_for_failure, bind, complete, ret.
    destruct (llm w _ _); reflexivity.
  - destruct target as [|c t]; [apply contains_empty|].
    unfold prompt, ClaudeLLM.replan_prompt. rewrite T.
    change (py_or (PyStr (String c t)) (Dict.get "value" failed_action))
      with (PyStr (String c t)).
    cbn [unlines Render.str].
    do 6 apply contains_after. rewrite !append_assoc.
    do 3 apply contains_after. apply contains_here.
  - unfold prompt, ClaudeLLM.replan_prompt. cbn [unlines].
    do 8 apply contains_after. rewrite !append_assoc.
    apply contains_after, contains_here.
Qed.

End RestReplan.

(* ================================================================== *)
(** ** The bracket scan and the planners *)

Section Decoding.

(** With no opening bracket before and no closing bracket after, the
    scan cuts the bracketed text out exactly. *)
Lemma bracket_scan (o c : ascii) (pre body post : string) :
  find o pre = -1 -> rfind c post = -1 ->
  let response := embedded o c pre body post in
  let js := ClaudeLLM.json_start o response in
  let je := ClaudeLLM.json_end c response in
  (0 <=? js) && (js <? je) = true
  /\ slice response js je = String o body +++ String c "".
Proof.
  intros Hpre Hpost response js je.
  assert (Ejs : js = len pre).
  { unfold js, ClaudeLLM.json_start, response, embedded.
    cbn [String.append]. apply find_skip, Hpre. }
  assert (Eje : je = len pre + len (String o body +++ String c "")).
  { unfold je, ClaudeLLM.json_end, response, embedded.
    rewrite rfind_append, rfind_append, Hpost.
    change (0 <=? -1) with false. cbv iota.
    rewrite rfind_last, len_append.
    pose proof (len_nonneg (String o body)).
    destruct (0 <=? len (String o body)) eqn:E1; [|apply Z.leb_gt in E1; lia].
    change (len (String c "")) with 1. lia. }
  rewrite Ejs, Eje. split.
  - pose proof (len_nonneg pre).
    assert (0 < len (String o body +++ String c "")).
    { change (String o body +++ String c "") with (String o (body +++ String c "")).
      rewrite len_cons. pose proof (len_nonneg (body +++ String c "")). lia. }
    apply andb_true_iff. split; [apply Z.leb_le | apply Z.ltb_lt]; lia.
  - unfold response, embedded. apply slice_middle.
Qed.

Lemma decode_actions_embedded (pre body post : string) (v : pyval) :
  find "[" pre = -1 -> rfind "]" post = -1 ->
  Json.loads (String "[" body +++ "]") = Some v ->
  ClaudeLLM.decode_actions (embedded "[" "]" pre body post) = v.
Proof.
  intros Hpre Hpost L. unfold ClaudeLLM.decode_actions.
  destruct (bracket_scan "[" "]" pre body post Hpre Hpost) as [G S].
  cbv zeta in G, S. rewrite G, S, L. reflexivity.
Qed.

Lemma make_actions_forwarded (items : list pyval) :
  forall acts, MCP.make_actions items = Ok acts -> Forall2 forwarded items acts.
Proof.
  induction items as [|a rest IH]; intros acts H; cbn [MCP.make_actions] in H.
  - injection H as <-. constructor.
  - destruct (MCP.make_action a) as [x|e] eqn:Ea; [|discriminate].
    destruct (MCP.make_actions rest) as [xs|e]; [|discriminate].
    injection H as <-. constructor; [|apply IH; reflexivity].
    unfold MCP.make_action in Ea. destruct a as [| | | | |?|d]; try discriminate.
    destruct (Dict.lookup "action" d) as [k|] eqn:Ek; [|discriminate].
    injection Ea as <-. exists d. cbn. auto 6.
Qed.

Lemma make_actions_total (items : list pyval) :
  Forall has_action items -> exists acts, MCP.make_actions items = Ok acts.
Proof.
  induction 1 as [|a rest (d & k & -> & Ek) _ (xs & IH)]; cbn [MCP.make_actions].
  - eauto.
  - unfold MCP.make_action. rewrite Ek, IH. eauto.
Qed.


End Decoding.




(** C7, as the code has it.  The planners do not look at the kind: when
    every element of the array the oracle gave is a dictionary with an
    "action" entry, [plan_task] returns a plan that carries every
    element over, in order, its kind being that entry whatever it is;
    [plan_actions] returns the elements themselves. *)
Theorem planner_forwards_every_kind
    (i : MCP.UserIntent) (intent screen : pydict) (w : world)
    (response pre body post : string) (items : list pyval) :
  (answers w (MCP.plan_prompt i screen) response ->
   Json.loads response = Some (PyList items) ->
   Forall has_action items ->
   exists plan w',
     MCP.plan_task i screen w = (Ok plan, w')
     /\ Forall2 forwarded items (MCP.actions plan))
  /\ (answers w (ClaudeLLM.plan_actions_prompt intent screen)
        (embedded "[" "]" pre body post) ->
      find "[" pre = -1 -> rfind "]" post = -1 ->
      Json.loads (String "[" body +++ "]") = Some (PyList items) ->
      fst (ClaudeLLM.plan_actions intent screen w) = Ok (PyList items)).
Proof.
  split.
  - unfold answers. intros A L F.
    destruct (make_actions_total items F) as [acts E].
    unfold MCP.plan_task, bind, complete, raise, ret. rewrite A, L.
    cbn [MCP.iterate]. rewrite E.
    eexists _, _. split; [reflexivity|]. cbn [MCP.actions].
    apply make_actions_forwarded, E.
  - unfold answers. intros A Hpre Hpost L.
    unfold ClaudeLLM.plan_actions, bind, complete, ret. rewrite A.
    rewrite (decode_actions_embedded _ _ _ _ Hpre Hpost L). reflexivity.
Qed.

(** C7 fails as stated: the oracle answers with one action of kind
    "fly"; both planners return it. *)
Lemma unknown_kind_is_forwarded :
  in_vocabulary (PyStr "fly") = false
  /\ (exists plan w',
        MCP.plan_task Scenario.mom_intent Scenario.launcher_screen
          (Scenario.always Scenario.fly) = (Ok plan, w')
        /\ map MCP.action (MCP.actions plan) = [PyStr "fly"])
  /\ fst (ClaudeLLM.plan_actions [("intent", PyStr "send_message")]
            Scenario.launcher_screen (Scenario.always Scenario.fly))
     = Ok (PyList [PyDict [("action", PyStr "fly"); ("target", PyStr "moon")]]).
Proof.
  split; [reflexivity|]. split; [|vm_compute; reflexivity].
  eexists _, _. split; vm_compute; reflexivity.
Qed.

Lemma planner_forwards_every_kind_witness :
  (exists plan w',
     MCP.plan_task Scenario.mom_intent Scenario.launcher_screen
       (Scenario.always Scenario.fly) = (Ok plan, w')
     /\ Forall2 forwarded
          [PyDict [("action", PyStr "fly"); ("target", PyStr "moon")]]
          (MCP.actions plan))
  /\ fst (ClaudeLLM.plan_actions [("intent", PyStr "send_message")]
            Scenario.launcher_screen (Scenario.always Scenario.fly))
     = Ok (PyList [PyDict [("action", PyStr "fly"); ("target", PyStr "moon")]]).
Proof.
  split.
  - apply (proj1 (planner_forwards_every_kind Scenario.mom_intent []
                    Scenario.launcher_screen (Scenario.always Scenario.fly)
                    Scenario.fly "" "" ""
                    [PyDict [("action", PyStr "fly"); ("target", PyStr "moon")]])).
    + reflexivity.
    + vm_compute. reflexivity.
    + repeat constructor. eexists _, _. split; reflexivity.
  - apply (proj2 (planner_forwards_every_kind Scenario.mom_intent
                    [("intent", PyStr "send_message")]
                    Scenario.launcher_screen (Scenario.always Scenario.fly)
                    "" ""
                    (qq "{`action`: `fly`, `target`: `moon`}") ""
                    [PyDict [("action", PyStr "fly"); ("target", PyStr "moon")]]));
      vm_compute; reflexivity.
Defined.

(* ================================================================== *)
(** ** Intent extraction *)

Section IntentDecoding.


Lemma loads_empty : Json.loads "" = None.
Proof. reflexivity. Qed.



End IntentDecoding.







(* ================================================================== *)
(** ** Task identifiers *)

Section TaskIds.



Lemma plan_task_id (i : MCP.UserIntent) (screen : pydict) (w w' : world)
    (plan : MCP.TaskPlan) :
  MCP.plan_task i screen w = (Ok plan, w') ->
  MCP.task_id plan = "task_" +++ dec (Z.of_nat (MCP.oid i))
  /\ MCP.original_intent plan = i.
Proof.
  unfold MCP.plan_task, bind, complete, raise, ret.
  destruct (llm w _ _) as [response|]; [|discriminate].
  destruct (Json.loads response) as [data|]; [|discriminate].
  destruct (MCP.iterate data) as [items|]; [|discriminate].
  destruct (MCP.make_actions items) as [acts|[]]; try discriminate.
  intros H. injection H as <- _. split; reflexivity.
Qed.


End TaskIds.




(* ================================================================== *)
(** ** What the REST decoders return *)

Section DecoderShapes.





Lemma drop_find (c : ascii) (s : string) :
  0 <= find c s -> exists r, drop (Z.to_nat (find c s)) s = String c r.
Proof.
  induction s as [|d s IH]; cbn [find]; [lia|].
  destruct (Ascii.eqb d c) eqn:E.
  - apply Ascii.eqb_eq in E. subst d. intros _. exists s. reflexivity.
  - destruct (find c s <? 0) eqn:N; [lia|]. apply Z.ltb_ge in N. intros _.
    destruct (IH N) as [r Hr]. exists r.
    replace (Z.to_nat (find c s + 1)) with (S (Z.to_nat (find c s))) by lia.
    exact Hr.
Qed.

Lemma find_below_len (c : ascii) (s : string) : find c s < Z.max 1 (len s).
Proof.
  destruct (find_range c s) as [H|[H _]]; lia.
Qed.

(** The slice taken by the scan opens with the bracket that was found. *)
Lemma slice_from_find (c : ascii) (s : string) (b : Z) :
  0 <= find c s -> find c s < b ->
  exists r, slice s (find c s) b = String c r.
Proof.
  intros H0 Hb. destruct (drop_find c s H0) as [r Hr].
  assert (L : find c s < len s).
  { destruct (find_range c s) as [H|[H _]]; lia. }
  unfold slice, clamp.
  destruct (find c s <? 0) eqn:E1; [apply Z.ltb_lt in E1; lia|].
  destruct (b <? 0) eqn:E2; [apply Z.ltb_lt in E2; lia|].
  replace (Z.max 0 (Z.min (find c s) (len s))) with (find c s) by lia.
  rewrite Hr.
  destruct (Z.to_nat (Z.max 0 (Z.min b (len s)) - find c s)) as [|n] eqn:N; [lia|].
  cbn [take]. eauto.
Qed.

Lemma rfind_end_nonneg (c : ascii) (s : string) : 0 <= ClaudeLLM.json_end c s.
Proof. unfold ClaudeLLM.json_end. pose proof (rfind_range c s). lia. Qed.

(** What the scan hands to [json.loads] when the guard of the
    synchronous decoders lets it through. *)
Lemma scanned_slice (o c : ascii) (response : string) :
  0 <= ClaudeLLM.json_start o response ->
  ((ClaudeLLM.json_start o response <? ClaudeLLM.json_end c response) = false
   /\ ClaudeLLM.json_str o c response = "")
  \/ ((ClaudeLLM.json_start o response <? ClaudeLLM.json_end c response) = true
      /\ exists r, ClaudeLLM.json_str o c response = String o r).
Proof.
  intros H. unfold ClaudeLLM.json_str.
  destruct (_ <? _) eqn:E.
  - right. split; [reflexivity|]. apply Z.ltb_lt in E.
    apply slice_from_find; assumption.
  - left. split; [reflexivity|]. apply Z.ltb_ge in E.
    apply slice_empty; [assumption|].
    pose proof (rfind_end_nonneg c response). lia.
Qed.



End DecoderShapes.



(** X3.  The synchronous decoders test only that an opening bracket was
    found, the asynchronous ones also that the last closing bracket
    comes after it; this makes no difference.  On every response the
    two action decoders return the same list, and the two intent
    decoders return the same dictionary unless both fall back. *)
Theorem sync_and_async_decoders_agree (response : string) :
  ClaudeLLM.decode_actions_sync response = ClaudeLLM.decode_actions response
  /\ (ClaudeLLM.decode_intent_sync response = ClaudeLLM.decode_intent response
      \/ (ClaudeLLM.decode_intent response = ClaudeLLM.fallback_intent
          /\ ClaudeLLM.decode_intent_sync response
             = ClaudeLLM.fallback_intent_sync)).
Proof.
  unfold ClaudeLLM.decode_actions, ClaudeLLM.decode_actions_sync,
    ClaudeLLM.decode_intent, ClaudeLLM.decode_intent_sync.
  split.
  - destruct (0 <=? ClaudeLLM.json_start "[" response) eqn:E0; [|reflexivity].
    apply Z.leb_le in E0. cbn [andb].
    destruct (scanned_slice "[" "]" response E0) as [[G S]|[G [r S]]];
      unfold ClaudeLLM.json_str in S; rewrite G; [|reflexivity].
    rewrite S. reflexivity.
  - destruct (0 <=? ClaudeLLM.json_start "{" response) eqn:E0; [|right; auto].
    apply Z.leb_le in E0. cbn [andb].
    destruct (scanned_slice "{" "}" response E0) as [[G S]|[G [r S]]];
      unfold ClaudeLLM.json_str in S; rewrite G.
    + rewrite S. right. auto.
    + destruct (Json.loads _); [left; reflexivity | right; auto].
Qed.

(* ================================================================== *)
(** ** The MCP planner: which answers give a plan *)

Section PlannerOutcomes.

Lemma forwarded_has_action (a : pyval) (x : MCP.UIAction) :
  forwarded a x -> has_action a.
Proof. intros (d & -> & E & _). exists d, (MCP.action x). auto. Qed.

Lemma make_actions_ok_iff (items : list pyval) :
  (exists acts, MCP.make_actions items = Ok acts) <-> Forall has_action items.
Proof.
  split; [|apply make_actions_total].
  intros [acts E]. apply make_actions_forwarded in E.
  induction E as [|a x items acts F _ IH]; constructor; [|exact IH].
  exact (forwarded_has_action _ _ F).
Qed.

(** The first element that cannot be made into an action decides. *)
Lemma make_actions_first_unusable (good rest : list pyval) (bad : pyval) (e : exn) :
  Forall has_action good ->
  MCP.make_action bad = Raise e ->
  MCP.make_actions (good ++ bad :: rest) = Raise e.
Proof.
  intros G B. induction G as [|a good (d & k & -> & Ek) _ IH];
    cbn [app MCP.make_actions].
  - rewrite B. reflexivity.
  - unfold MCP.make_action at 1. rewrite Ek, IH. reflexivity.
Qed.

Lemma make_action_of_string (s : string) : MCP.make_action (PyStr s) = Raise TypeError.
Proof. reflexivity. Qed.

End PlannerOutcomes.

(** X4.  [plan_task] returns a plan exactly when the answer of the
    oracle is JSON that can be iterated over and every element is a
    dictionary with an "action" entry. *)
Theorem plan_task_succeeds_iff
    (i : MCP.UserIntent) (screen : pydict) (w : world) (response : string) :
  answers w (MCP.plan_prompt i screen) response ->
  ((exists plan w', MCP.plan_task i screen w = (Ok plan, w'))
   <-> exists data items,
         Json.loads response = Some data
         /\ MCP.iterate data = Some items
         /\ Forall has_action items).
Proof.
  unfold answers. intros A.
  unfold MCP.plan_task, bind, complete, raise, ret. rewrite A. split.
  - intros (plan & w' & H).
    destruct (Json.loads response) as [data|] eqn:L; [|discriminate].
    destruct (MCP.iterate data) as [items|] eqn:I; [|discriminate].
    destruct (MCP.make_actions items) as [acts|e] eqn:E;
      [|destruct e; discriminate].
    exists data, items. split; [reflexivity|]. split; [exact I|].
    apply make_actions_ok_iff. eauto.
  - intros (data & items & -> & -> & F).
    apply make_actions_ok_iff in F. destruct F as [acts ->]. eauto.
Qed.

Lemma plan_task_succeeds_iff_witness :
  (exists plan w',
     MCP.plan_task Scenario.mom_intent Scenario.chat_screen
       (Scenario.always Scenario.scroll_then_click) = (Ok plan, w'))
  <-> exists data items,
        Json.loads Scenario.scroll_then_click = Some data
        /\ MCP.iterate data = Some items
        /\ Forall has_action items.
Proof.
  apply (plan_task_succeeds_iff Scenario.mom_intent Scenario.chat_screen
           (Scenario.always Scenario.scroll_then_click)
           Scenario.scroll_then_click).
  reflexivity.
Defined.

(** X5.  When the answer is an array, the first element that is not a
    dictionary with an "action" entry decides how [plan_task] fails: an
    element that is not a dictionary at all lets [TypeError] escape,
    a dictionary without the entry gives the [ValueError] of an
    invalid plan. *)
Theorem plan_task_first_unusable_element
    (i : MCP.UserIntent) (screen : pydict) (w : world) (response : string)
    (good rest : list pyval) (bad : pyval) :
  answers w (MCP.plan_prompt i screen) response ->
  Json.loads response = Some (PyList (good ++ bad :: rest)) ->
  Forall has_action good ->
  ((forall d, bad <> PyDict d) ->
   MCP.plan_task i screen w
   = (Raise TypeError, after_prompt w (MCP.plan_prompt i screen)))
  /\ (forall d, bad = PyDict d -> Dict.lookup "action" d = None ->
      MCP.plan_task i screen w
      = (Raise (ValueError ("Invalid task plan format: " +++ response)),
         after_prompt w (MCP.plan_prompt i screen))).
Proof.
  unfold answers. intros A L G.
  unfold MCP.plan_task, bind, complete, raise, ret. rewrite A, L.
  cbn [MCP.iterate]. split.
  - intros N.
    rewrite (make_actions_first_unusable good rest bad TypeError G);
      [reflexivity|].
    destruct bad; try reflexivity. exfalso. exact (N _ eq_refl).
  - intros d -> K.
    rewrite (make_actions_first_unusable good rest (PyDict d)
               (KeyError "action") G); [reflexivity|].
    unfold MCP.make_action. rewrite K. reflexivity.
Qed.

Lemma plan_task_first_unusable_element_witness :
  MCP.plan_task Scenario.mom_intent Scenario.chat_screen
    (Scenario.always (qq "[{`action`: `back`}, 7, {}]"))
  = (Raise TypeError,
     after_prompt (Scenario.always (qq "[{`action`: `back`}, 7, {}]"))
       (MCP.plan_prompt Scenario.mom_intent Scenario.chat_screen))
  /\ MCP.plan_task Scenario.mom_intent Scenario.chat_screen
       (Scenario.always (qq "[{`action`: `back`}, {`target`: `Mom`}, 7]"))
     = (Raise (ValueError ("Invalid task plan format: "
                             +++ qq "[{`action`: `back`}, {`target`: `Mom`}, 7]")),
        after_prompt
          (Scenario.always (qq "[{`action`: `back`}, {`target`: `Mom`}, 7]"))
          (MCP.plan_prompt Scenario.mom_intent Scenario.chat_screen)).
Proof.
  assert (G : Forall has_action [PyDict [("action", PyStr "back")]]).
  { repeat constructor. eexists _, _. split; reflexivity. }
  split.
  - apply (proj1 (plan_task_first_unusable_element Scenario.mom_intent
                    Scenario.chat_screen
                    (Scenario.always (qq "[{`action`: `back`}, 7, {}]"))
                    (qq "[{`action`: `back`}, 7, {}]")
                    [PyDict [("action", PyStr "back")]] [PyDict []] (PyInt 7)
                    eq_refl eq_refl G)).
    discriminate.
  - apply (proj2 (plan_task_first_unusable_element Scenario.mom_intent
                    Scenario.chat_screen
                    (Scenario.always
                       (qq "[{`action`: `back`}, {`target`: `Mom`}, 7]"))
                    (qq "[{`action`: `back`}, {`target`: `Mom`}, 7]")
                    [PyDict [("action", PyStr "back")]] [PyInt 7]
                    (PyDict [("target", PyStr "Mom")])
                    eq_refl eq_refl G)
             [("target", PyStr "Mom")]); reflexivity.
Defined.

(** X6.  An answer that is JSON but not an array gives a plan only when
    it is the empty object or the empty string, and that plan has no
    action: [plan_task] iterates over whatever was decoded, and the keys
    of an object and the characters of a string are not dictionaries. *)
Theorem plan_from_object_or_string_is_empty
    (i : MCP.UserIntent) (screen : pydict) (w w' : world) (response : string)
    (data : pyval) (plan : MCP.TaskPlan) :
  answers w (MCP.plan_prompt i screen) response ->
  Json.loads response = Some data ->
  MCP.plan_task i screen w = (Ok plan, w') ->
  (exists items, data = PyList items)
  \/ ((data = PyDict [] \/ data = PyStr "") /\ MCP.actions plan = []).
Proof.
  unfold answers. intros A L.
  unfold MCP.plan_task, bind, complete, raise, ret. rewrite A, L.
  destruct data as [| | | |s|items|d]; cbn [MCP.iterate]; try discriminate.
  - destruct s as [|c s]; cbn [MCP.chars MCP.make_actions].
    + intros H. injection H as <- _. right. auto.
    + rewrite make_action_of_string. discriminate.
  - intros _. left. eauto.
  - destruct d as [|[k v] d]; cbn [map MCP.make_actions fst].
    + intros H. injection H as <- _. right. auto.
    + rewrite make_action_of_string. discriminate.
Qed.

Lemma plan_from_object_or_string_is_empty_witness :
  exists plan w',
    MCP.plan_task Scenario.mom_intent Scenario.chat_screen (Scenario.always "{}")
    = (Ok plan, w')
    /\ ((exists items, PyDict [] = PyList items)
        \/ ((PyDict [] = PyDict [] \/ PyDict [] = PyStr "")
            /\ MCP.actions plan = [])).
Proof.
  eexists _, _. split; [vm_compute; reflexivity|].
  apply (plan_from_object_or_string_is_empty Scenario.mom_intent
           Scenario.chat_screen (Scenario.always "{}")
           (after_prompt (Scenario.always "{}")
              (MCP.plan_prompt Scenario.mom_intent Scenario.chat_screen))
           "{}" (PyDict [])); vm_compute; reflexivity.
Defined.

(* ================================================================== *)
(** ** The supervisor: exceptions, oracle calls, runs *)

Section SupervisorEdges.

Lemma is_str_true (v : pyval) (s : string) : MCP.is_str v s = true -> v = PyStr s.
Proof.
  destruct v; try discriminate. cbn [MCP.is_str]. intros H.
  apply String.eqb_eq in H. congruence.
Qed.

Lemma replanned_world (plan : MCP.TaskPlan) (screen : pydict) (w : world) :
  replanned plan screen w
  = (fst (replanned plan screen w),
     after_prompt w (MCP.plan_prompt (MCP.original_intent plan) screen)).
Proof. rewrite <- replanned_sends. apply surjective_pairing. Qed.

Lemma replan_after_failure_indexed
    (plan : MCP.TaskPlan) (i : Z) (reason : string) (screen : pydict)
    (w : world) (a : MCP.UIAction) :
  py_index (MCP.actions plan) i = Some a ->
  MCP.replan_after_failure plan i reason screen w = replanned plan screen w.
Proof.
  intros H. unfold MCP.replan_after_failure, replanned. rewrite H.
  unfold try_except, bind, ret.
  destruct (MCP.plan_task _ _ _) as [[p|e] w']; reflexivity.
Qed.

(** A replacement plan is for the intent of the plan it replaces and
    carries the identifier the planner gives for that intent. *)
Lemma replanned_plan (plan p : MCP.TaskPlan) (screen : pydict) (w w' : world) :
  replanned plan screen w = (Ok (Some p), w') ->
  MCP.original_intent p = MCP.original_intent plan /\ planner_made p.
Proof.
  unfold replanned, planner_made.
  destruct (MCP.plan_task _ _ _) as [[q|e] w1] eqn:P; [|discriminate].
  intros H. injection H as <- _.
  destruct (plan_task_id _ _ _ _ _ P) as [T I]. rewrite I. auto.
Qed.

Lemma handle_returned_plan
    (plan p : MCP.TaskPlan) (i : Z) (res screen : pydict) (w w' : world) :
  MCP.handle_action_result plan i res screen w = (Ok (Some p), w') ->
  p = plan
  \/ (MCP.original_intent p = MCP.original_intent plan /\ planner_made p).
Proof.
  unfold MCP.handle_action_result.
  destruct (py_index (MCP.actions plan) i) as [a|] eqn:Ha; [|discriminate].
  destruct (MCP.is_str _ "SUCCESS").
  - unfold ret. intros H. injection H as <- _. left. reflexivity.
  - destruct (MCP.is_str _ "ELEMENT_NOT_FOUND"); [|discriminate].
    rewrite (replan_after_failure_indexed _ _ _ _ _ _ Ha).
    intros H. right. exact (replanned_plan _ _ _ _ _ H).
Qed.

Lemma py_index_from_end {A} (l : list A) (i : Z) :
  0 <= i < Z.of_nat (List.length l) ->
  py_index l (i - Z.of_nat (List.length l)) = py_index l i.
Proof.
  intros H. unfold py_index.
  destruct (0 <=? i - Z.of_nat (List.length l)) eqn:E1;
    [apply Z.leb_le in E1; lia|].
  cbn [andb].
  destruct (- Z.of_nat (List.length l) <=? i - Z.of_nat (List.length l)) eqn:E2;
    [|apply Z.leb_gt in E2; lia].
  destruct (i - Z.of_nat (List.length l) <? 0) eqn:E3;
    [|apply Z.ltb_ge in E3; lia].
  destruct (0 <=? i) eqn:E4; [|apply Z.leb_gt in E4; lia].
  destruct (i <? Z.of_nat (List.length l)) eqn:E5; [|apply Z.ltb_ge in E5; lia].
  cbn [andb]. f_equal. lia.
Qed.

Lemma py_index_below {A} (l : list A) (i : Z) :
  i < - Z.of_nat (List.length l) -> py_index l i = None.
Proof.
  intros H. unfold py_index.
  destruct (0 <=? i) eqn:E1; [apply Z.leb_le in E1; lia|].
  destruct (- Z.of_nat (List.length l) <=? i) eqn:E2;
    [apply Z.leb_le in E2; lia|].
  reflexivity.
Qed.

End SupervisorEdges.

(** X7.  The supervisor lets no exception out but [IndexError], and
    when it raises it has done nothing.  What goes wrong while
    replanning comes back as [None]: with a position of the plan, a
    result of status ELEMENT_NOT_FOUND and an oracle whose call fails,
    the handler returns [None]. *)
Theorem supervisor_raises_only_index_error
    (plan : MCP.TaskPlan) (i : Z) (res screen : pydict) (reason : string)
    (w : world) :
  (forall e w',
      MCP.handle_action_result plan i res screen w = (Raise e, w') ->
      e = IndexError /\ w' = w)
  /\ (forall e w',
         MCP.replan_after_failure plan i reason screen w = (Raise e, w') ->
         e = IndexError /\ w' = w)
  /\ (in_range plan i ->
      Dict.get "status" res = PyStr "ELEMENT_NOT_FOUND" ->
      (forall prompt, llm w (List.length (sent w)) prompt = Fails) ->
      fst (MCP.handle_action_result plan i res screen w) = Ok None).
Proof.
  split; [|split].
  - intros e w'. unfold MCP.handle_action_result.
    destruct (py_index (MCP.actions plan) i) as [a|] eqn:Ha.
    + destruct (MCP.is_str _ "SUCCESS"); [discriminate|].
      destruct (MCP.is_str _ "ELEMENT_NOT_FOUND"); [|discriminate].
      rewrite (replan_after_failure_indexed _ _ _ _ _ _ Ha).
      destruct (replanned_returns plan screen w) as [out E].
      rewrite (surjective_pairing (replanned plan screen w)), E. discriminate.
    + unfold raise. intros H. injection H as <- <-. auto.
  - intros e w'.
    destruct (py_index (MCP.actions plan) i) as [a|] eqn:Ha.
    + rewrite (replan_after_failure_indexed _ _ _ _ _ _ Ha).
      destruct (replanned_returns plan screen w) as [out E].
      rewrite (surjective_pairing (replanned plan screen w)), E. discriminate.
    + unfold MCP.replan_after_failure. rewrite Ha.
      unfold raise. intros H. injection H as <- <-. auto.
  - intros R E F. rewrite (handle_element_not_found _ _ _ _ _ R E).
    unfold replanned, MCP.plan_task, bind, complete. rewrite F. reflexivity.
Qed.

Lemma supervisor_raises_only_index_error_witness :
  (IndexError = IndexError
   /\ Scenario.always Scenario.refusal = Scenario.always Scenario.refusal)
  /\ fst (MCP.handle_action_result Scenario.mom_plan 1 Scenario.element_not_found
            Scenario.chat_screen silent) = Ok None.
Proof.
  split.
  - apply (proj1 (supervisor_raises_only_index_error Scenario.mom_plan 2
                    Scenario.element_not_found Scenario.chat_screen
                    "Element not found" (Scenario.always Scenario.refusal))).
    reflexivity.
  - apply (proj2 (proj2 (supervisor_raises_only_index_error Scenario.mom_plan 1
                           Scenario.element_not_found Scenario.chat_screen
                           "Element not found" silent))).
    + unfold in_range. cbn. lia.
    + reflexivity.
    + reflexivity.
Defined.

(** X8.  Handling one result sends at most one prompt and touches
    nothing else: either the world is as it was, or one prompt was
    added, and then the position was one of the plan and the status was
    ELEMENT_NOT_FOUND.  A result of any other status, SUCCESS
    included, never reaches the oracle. *)
Theorem handler_asks_oracle_only_for_element_not_found
    (plan : MCP.TaskPlan) (i : Z) (res screen : pydict) (w : world) :
  snd (MCP.handle_action_result plan i res screen w) = w
  \/ exists prompt a,
       snd (MCP.handle_action_result plan i res screen w) = after_prompt w prompt
       /\ py_index (MCP.actions plan) i = Some a
       /\ Dict.get "status" res = PyStr "ELEMENT_NOT_FOUND".
Proof.
  unfold MCP.handle_action_result.
  destruct (py_index (MCP.actions plan) i) as [a|] eqn:Ha; [|left; reflexivity].
  destruct (MCP.is_str _ "SUCCESS"); [left; reflexivity|].
  destruct (MCP.is_str _ "ELEMENT_NOT_FOUND") eqn:E; [|left; reflexivity].
  right. rewrite (replan_after_failure_indexed _ _ _ _ _ _ Ha).
  eexists _, a. split; [apply replanned_sends|]. split; [reflexivity|].
  exact (is_str_true _ _ E).
Qed.

(** X9.  Along any run of the supervisor, whatever the results are, the
    plan in force stays a plan for the intent of the first one; and
    when the first plan carries the identifier the planner gives for
    its intent, every later plan carries that same identifier. *)
Theorem run_keeps_intent_and_task_id
    (steps : list Supervisor.step) (plan out : MCP.TaskPlan) (w w' : world) :
  Supervisor.feed steps plan w = (Ok (Some out), w') ->
  MCP.original_intent out = MCP.original_intent plan
  /\ (planner_made plan -> MCP.task_id out = MCP.task_id plan).
Proof.
  revert plan w. induction steps as [|[[i res] screen] rest IH]; intros plan w R.
  - cbn in R. injection R as <- _. auto.
  - cbn [Supervisor.feed] in R. unfold bind in R.
    destruct (MCP.handle_action_result plan i res screen w) as [[o|e] w1] eqn:H;
      [|discriminate].
    destruct o as [p|]; [|discriminate].
    destruct (IH _ _ R) as [I T].
    destruct (handle_returned_plan _ _ _ _ _ _ _ H) as [->|[Ip Mp]]; [auto|].
    split; [congruence|]. intros M. rewrite (T Mp).
    unfold planner_made in *. congruence.
Qed.

Lemma run_keeps_intent_and_task_id_witness :
  exists out w',
    Supervisor.feed
      [(0, [("status", PyStr "SUCCESS")], Scenario.chat_screen);
       (1, Scenario.element_not_found, Scenario.chat_screen);
       (-1, Scenario.element_not_found, Scenario.chat_screen)]
      Scenario.mom_plan (Scenario.always Scenario.scroll_then_click)
    = (Ok (Some out), w')
    /\ MCP.original_intent out = MCP.original_intent Scenario.mom_plan
    /\ (planner_made Scenario.mom_plan ->
        MCP.task_id out = MCP.task_id Scenario.mom_plan).
Proof.
  eexists _, _. split; [vm_compute; reflexivity|].
  eapply (run_keeps_intent_and_task_id
            [(0, [("status", PyStr "SUCCESS")], Scenario.chat_screen);
             (1, Scenario.element_not_found, Scenario.chat_screen);
             (-1, Scenario.element_not_found, Scenario.chat_screen)]
            Scenario.mom_plan _ (Scenario.always Scenario.scroll_then_click)).
  vm_compute. reflexivity.
Defined.

(** X10.  A negative position counts from the end of the plan, as
    Python's indexing has it: for a position [i] of the plan, the
    handler and the replanner do at [i - len] what they do at [i].
    Below [- len] they raise [IndexError]. *)
Theorem negative_position_counts_from_the_end
    (plan : MCP.TaskPlan) (i : Z) (res screen : pydict) (reason : string)
    (w : world) :
  (in_range plan i ->
   MCP.handle_action_result plan
     (i - Z.of_nat (List.length (MCP.actions plan))) res screen w
   = MCP.handle_action_result plan i res screen w
   /\ MCP.replan_after_failure plan
        (i - Z.of_nat (List.length (MCP.actions plan))) reason screen w
      = MCP.replan_after_failure plan i reason screen w)
  /\ (i < - Z.of_nat (List.length (MCP.actions plan)) ->
      MCP.handle_action_result plan i res screen w = (Raise IndexError, w)
      /\ MCP.replan_after_failure plan i reason screen w = (Raise IndexError, w)).
Proof.
  split.
  - intros R. pose proof (py_index_from_end _ _ R) as E.
    destruct (py_index_in_range _ _ R) as [a Ha]. rewrite Ha in E.
    split.
    + unfold MCP.handle_action_result. rewrite E, Ha.
      destruct (MCP.is_str _ "SUCCESS"); [reflexivity|].
      destruct (MCP.is_str _ "ELEMENT_NOT_FOUND"); [|reflexivity].
      rewrite (replan_after_failure_indexed _ _ _ _ _ _ E).
      rewrite (replan_after_failure_indexed _ _ _ _ _ _ Ha). reflexivity.
    + rewrite (replan_after_failure_indexed _ _ _ _ _ _ E).
      rewrite (replan_after_failure_indexed _ _ _ _ _ _ Ha). reflexivity.
  - intros L. unfold MCP.handle_action_result, MCP.replan_after_failure.
    rewrite (py_index_below _ _ L). split; reflexivity.
Qed.

Lemma negative_position_counts_from_the_end_witness :
  (MCP.handle_action_result Scenario.mom_plan (1 - 2) Scenario.element_not_found
     Scenario.chat_screen (Scenario.always Scenario.scroll_then_click)
   = MCP.handle_action_result Scenario.mom_plan 1 Scenario.element_not_found
       Scenario.chat_screen (Scenario.always Scenario.scroll_then_click)
   /\ MCP.replan_after_failure Scenario.mom_plan (1 - 2) "Element not found"
        Scenario.chat_screen (Scenario.always Scenario.scroll_then_click)
      = MCP.replan_after_failure Scenario.mom_plan 1 "Element not found"
          Scenario.chat_screen (Scenario.always Scenario.scroll_then_click))
  /\ (MCP.handle_action_result Scenario.mom_plan (-3) Scenario.element_not_found
        Scenario.chat_screen (Scenario.always Scenario.scroll_then_click)
      = (Raise IndexError, Scenario.always Scenario.scroll_then_click)
      /\ MCP.replan_after_failure Scenario.mom_plan (-3) "Element not found"
           Scenario.chat_screen (Scenario.always Scenario.scroll_then_click)
         = (Raise IndexError, Scenario.always Scenario.scroll_then_click)).
Proof.
  split.
  - apply (proj1 (negative_position_counts_from_the_end Scenario.mom_plan 1
                    Scenario.element_not_found Scenario.chat_screen
                    "Element not found"
                    (Scenario.always Scenario.scroll_then_click))).
    unfold in_range. cbn. lia.
  - apply (proj2 (negative_position_counts_from_the_end Scenario.mom_plan (-3)
                    Scenario.element_not_found Scenario.chat_screen
                    "Element not found"
                    (Scenario.always Scenario.scroll_then_click))).
    cbn. lia.
Defined.

(* ================================================================== *)
(** ** The command pipeline *)

(** X11.  A command that gets a plan has cost two calls of the oracle,
    in this order: the parsing prompt for the utterance, then the
    planning prompt for the intent just parsed and the screen.  The
    intent of the plan is a new object whose fields are the "intent",
    "target_app" and "entities" entries of the object the first answer
    decodes to (absent entries read as [None]), and the identifier of
    the plan is made from the identity of that object. *)
Theorem process_user_command_success
    (user_input : string) (screen : pydict) (w w' : world) (plan : MCP.TaskPlan) :
  MCP.process_user_command user_input screen w = (Ok plan, w') ->
  exists response d,
    answers w (MCP.parse_prompt user_input) response
    /\ Json.loads response = Some (PyDict d)
    /\ MCP.original_intent plan
       = {| MCP.oid := next_id w;
            MCP.intent := Dict.get "intent" d;
            MCP.target_app := Dict.get "target_app" d;
            MCP.entities := Dict.get "entities" d |}
    /\ MCP.task_id plan = "task_" +++ dec (Z.of_nat (next_id w))
    /\ sent w'
       = (sent w ++ [MCP.parse_prompt user_input;
                     MCP.plan_prompt (MCP.original_intent plan) screen])%list
    /\ next_id w' = S (next_id w).
Proof.
  unfold MCP.process_user_command, bind at 1.
  destruct (MCP.parse_user_input user_input w) as [[i|e] w1] eqn:P; [|discriminate].
  intros T.
  unfold MCP.parse_user_input, bind, complete, raise, ret, fresh_id in P.
  destruct (llm w _ _) as [response|] eqn:A; [|discriminate].
  destruct (Json.loads response) as [v|] eqn:L; [|discriminate].
  destruct v as [| | | | | |d]; try discriminate.
  injection P as <- <-.
  destruct (plan_task_id _ _ _ _ _ T) as [Tid I].
  match type of T with
  | MCP.plan_task ?i ?s ?w1 = _ => pose proof (plan_task_sends i s w1) as S
  end.
  rewrite T in S. cbn [snd] in S.
  exists response, d. rewrite I, Tid, S. unfold after_prompt. cbn [sent next_id MCP.oid].
  repeat split; try assumption; try reflexivity.
  rewrite <- app_assoc. reflexivity.
Qed.

Lemma process_user_command_success_witness :
  exists plan w' response d,
    MCP.process_user_command Scenario.utterance Scenario.launcher_screen
      Scenario.session = (Ok plan, w')
    /\ answers Scenario.session (MCP.parse_prompt Scenario.utterance) response
    /\ Json.loads response = Some (PyDict d)
    /\ MCP.original_intent plan
       = {| MCP.oid := next_id Scenario.session;
            MCP.intent := Dict.get "intent" d;
            MCP.target_app := Dict.get "target_app" d;
            MCP.entities := Dict.get "entities" d |}
    /\ MCP.task_id plan = "task_" +++ dec (Z.of_nat (next_id Scenario.session))
    /\ sent w'
       = (sent Scenario.session
            ++ [MCP.parse_prompt Scenario.utterance;
                MCP.plan_prompt (MCP.original_intent plan)
                  Scenario.launcher_screen])%list
    /\ next_id w' = S (next_id Scenario.session).
Proof.
  assert (R : exists plan w',
             MCP.process_user_command Scenario.utterance Scenario.launcher_screen
               Scenario.session = (Ok plan, w')).
  { eexists _, _. vm_compute. reflexivity. }
  destruct R as (plan & w' & R).
  destruct (process_user_command_success Scenario.utterance
              Scenario.launcher_screen Scenario.session w' plan R)
    as (response & d & H).
  exists plan, w', response, d. split; [exact R | exact H].
Defined.

(** X12.  When the answer to the parsing prompt is not a JSON object,
    the command fails after that one call and the planner is never
    asked: text that is not JSON gives the [ValueError] of an invalid
    intent, JSON that is not an object (an array, a string, a number,
    null) lets [AttributeError] escape. *)
Theorem process_user_command_parse_failure
    (user_input response : string) (screen : pydict) (w : world) :
  answers w (MCP.parse_prompt user_input) response ->
  (Json.loads response = None ->
   MCP.process_user_command user_input screen w
   = (Raise (ValueError ("Invalid intent format: " +++ response)),
      after_prompt w (MCP.parse_prompt user_input)))
  /\ (forall v, Json.loads response = Some v -> (forall d, v <> PyDict d) ->
      MCP.process_user_command user_input screen w
      = (Raise AttributeError, after_prompt w (MCP.parse_prompt user_input))).
Proof.
  unfold answers. intros A.
  unfold MCP.process_user_command, MCP.parse_user_input, bind, complete, raise.
  rewrite A. split.
  - intros ->. reflexivity.
  - intros v -> N. destruct v; try reflexivity. exfalso. exact (N _ eq_refl).
Qed.

Lemma process_user_command_parse_failure_witness :
  MCP.process_user_command Scenario.utterance Scenario.launcher_screen
    (Scenario.always Scenario.refusal)
  = (Raise (ValueError ("Invalid intent format: " +++ Scenario.refusal)),
     after_prompt (Scenario.always Scenario.refusal)
       (MCP.parse_prompt Scenario.utterance))
  /\ MCP.process_user_command Scenario.utterance Scenario.launcher_screen
       (Scenario.always Scenario.scroll_then_click)
     = (Raise AttributeError,
        after_prompt (Scenario.always Scenario.scroll_then_click)
          (MCP.parse_prompt Scenario.utterance)).
Proof.
  split.
  - apply (proj1 (process_user_command_parse_failure Scenario.utterance
                    Scenario.refusal Scenario.launcher_screen
                    (Scenario.always Scenario.refusal) eq_refl)).
    reflexivity.
  - eapply (proj2 (process_user_command_parse_failure Scenario.utterance
                     Scenario.scroll_then_click Scenario.launcher_screen
                     (Scenario.always Scenario.scroll_then_click) eq_refl)).
    + vm_compute. reflexivity.
    + discriminate.
Defined.

(* ================================================================== *)
(** ** The REST replanner and the routes *)

(** X13.  [replan_for_failure] does send the failure context: the one
    prompt it sends quotes the failure reason and what
    [failed_action.get('target') or failed_action.get('value')] prints
    as, so the target of the failed action whenever that is a string. *)
Theorem rest_replanner_sends_failure_context
    (original_intent failed_action screen : pydict) (failure_reason : string)
    (w : world) :
  snd (ClaudeLLM.replan_for_failure original_intent failed_action
         failure_reason screen w)
  = after_prompt w
      (ClaudeLLM.replan_prompt original_intent failed_action failure_reason screen)
  /\ contains failure_reason
       (ClaudeLLM.replan_prompt original_intent failed_action failure_reason screen)
     = true
  /\ contains
       (Render.str (py_or (Dict.get "target" failed_action)
                          (Dict.get "value" failed_action)))
       (ClaudeLLM.replan_prompt original_intent failed_action failure_reason screen)
     = true
  /\ (forall target,
         Dict.get "target" failed_action = PyStr target ->
         contains target
           (ClaudeLLM.replan_prompt original_intent failed_action
              failure_reason screen) = true).
Proof.
  split; [|split; [|split]].
  - unfold ClaudeLLM.replan_for_failure, bind, complete, ret.
    destruct (llm w _ _); reflexivity.
  - unfold ClaudeLLM.replan_prompt. cbn [unlines].
    do 8 apply contains_after. rewrite !append_assoc.
    apply contains_after, contains_here.
  - unfold ClaudeLLM.replan_prompt. cbn [unlines].
    do 6 apply contains_after. rewrite !append_assoc.
    do 3 apply contains_after. apply contains_here.
  - intros target T.
    exact (proj1 (proj2 (rest_replan_prompt_has_failure_context original_intent
                           failed_action failure_reason target screen w T))).
Qed.

Lemma rest_replanner_sends_failure_context_witness :
  contains "Mom"
    (ClaudeLLM.replan_prompt [("intent", PyStr "send_message")]
       [("action", PyStr "click"); ("target", PyStr "Mom")]
       "Contact 'Mom' not visible in chat list" Scenario.chat_screen) = true.
Proof.
  apply (proj2 (proj2 (proj2
           (rest_replanner_sends_failure_context
              [("intent", PyStr "send_message")]
              [("action", PyStr "click"); ("target", PyStr "Mom")]
              Scenario.chat_screen "Contact 'Mom' not visible in chat list"
              (Scenario.always Scenario.scroll_then_click))))).
  reflexivity.
Defined.

Section Store.

Lemma lookup_set_same (k : string) (v : pyval) (d : pydict) :
  Dict.lookup k (Dict.set k v d) = Some v.
Proof.
  induction d as [|[k' v'] d IH]; cbn [Dict.set Dict.lookup].
  - rewrite String.eqb_refl. reflexivity.
  - destruct (String.eqb k k') eqn:E; cbn [Dict.lookup]; rewrite E;
      [reflexivity | exact IH].
Qed.

Lemma lookup_set_other (k k0 : string) (v : pyval) (d : pydict) :
  k0 <> k -> Dict.lookup k0 (Dict.set k v d) = Dict.lookup k0 d.
Proof.
  intros N. induction d as [|[k' v'] d IH]; cbn [Dict.set Dict.lookup].
  - apply String.eqb_neq in N. rewrite N. reflexivity.
  - destruct (String.eqb k k') eqn:E; cbn [Dict.lookup].
    + apply String.eqb_eq in E. subst k'.
      apply String.eqb_neq in N. rewrite N. reflexivity.
    + destruct (String.eqb k0 k'); [reflexivity | exact IH].
Qed.

(** Every way through the [/api/plan] route. *)
Lemma plan_route_cases
    (data : pydict) (timestamp created_at : string) (tasks : pydict) (w : world) :
  let intent := Dict.get "intent" data in
  let screen_state := Dict.get "screen_state" data in
  (truthy intent && truthy screen_state = false
   /\ App.plan_task data timestamp created_at tasks w
      = (Ok (App.Error400 "Missing intent or screen_state", tasks), w))
  \/ (truthy intent && truthy screen_state = true
      /\ (forall i s, ~ (intent = PyDict i /\ screen_state = PyDict s))
      /\ App.plan_task data timestamp created_at tasks w
         = (Ok (App.Error500 AttributeError, tasks), w))
  \/ (exists i s,
        truthy intent && truthy screen_state = true
        /\ intent = PyDict i /\ screen_state = PyDict s
        /\ llm w (List.length (sent w)) (ClaudeLLM.plan_actions_sync_prompt i s)
           = Fails
        /\ App.plan_task data timestamp created_at tasks w
           = (Ok (App.Error500 OracleError, tasks),
              after_prompt w (ClaudeLLM.plan_actions_sync_prompt i s)))
  \/ (exists i s response,
        truthy intent && truthy screen_state = true
        /\ intent = PyDict i /\ screen_state = PyDict s
        /\ answers w (ClaudeLLM.plan_actions_sync_prompt i s) response
        /\ App.plan_task data timestamp created_at tasks w
           = (Ok (App.Json200
                    (PyDict [("task_id", PyStr ("task_" +++ timestamp));
                             ("actions", ClaudeLLM.decode_actions_sync response)]),
                  Dict.set ("task_" +++ timestamp)
                    (PyDict [("intent", intent);
                             ("actions", ClaudeLLM.decode_actions_sync response);
                             ("screen_state", screen_state);
                             ("created_at", PyStr created_at)])
                    tasks),
              after_prompt w (ClaudeLLM.plan_actions_sync_prompt i s))).
Proof.
  cbv zeta. unfold App.plan_task, answers.
  destruct (truthy (Dict.get "intent" data)) eqn:Ti;
    [|left; split; reflexivity].
  destruct (truthy (Dict.get "screen_state" data)) eqn:Ts;
    [|left; split; reflexivity].
  cbn [negb orb andb]. right.
  unfold try_except, bind, App.as_dict, ret, raise.
  destruct (Dict.get "intent" data) as [| | | | | |i] eqn:Ei;
    try (left; split; [reflexivity|]; split; [|reflexivity];
         intros ? ? [K _]; discriminate K).
  destruct (Dict.get "screen_state" data) as [| | | | | |s] eqn:Es;
    try (left; split; [reflexivity|]; split; [|reflexivity];
         intros ? ? [_ K]; discriminate K).
  right. unfold ClaudeLLM.plan_actions_sync, bind, complete, ret.
  destruct (llm w _ _) as [response|] eqn:A.
  - right. exists i, s, response. repeat split. exact A.
  - left. exists i, s. repeat split. exact A.
Qed.

End Store.

(** X14.  What [/api/plan] stores, [/api/task/<task_id>] gives back:
    after a plan request answered with status 200, asking for the task
    under the identifier of the answer returns a record holding the
    intent and the screen state that were posted, the actions that
    were returned, and the creation time. *)
Theorem planned_task_can_be_fetched
    (data : pydict) (timestamp created_at : string) (tasks tasks' : pydict)
    (w w' : world) (body : pyval) :
  App.plan_task data timestamp created_at tasks w
  = (Ok (App.Json200 body, tasks'), w') ->
  exists acts,
    body = PyDict [("task_id", PyStr ("task_" +++ timestamp)); ("actions", acts)]
    /\ Api.get_task ("task_" +++ timestamp) tasks'
       = Api.Found (PyDict [("intent", Dict.get "intent" data);
                            ("actions", acts);
                            ("screen_state", Dict.get "screen_state" data);
                            ("created_at", PyStr created_at)]).
Proof.
  intros H.
  destruct (plan_route_cases data timestamp created_at tasks w)
    as [[_ E]|[(_ & _ & E)|[(i & s & _ & _ & _ & _ & E)
                           |(i & s & response & _ & _ & _ & _ & E)]]];
    rewrite E in H; try discriminate H.
  injection H as <- <- _. eexists. split; [reflexivity|].
  unfold Api.get_task. rewrite lookup_set_same. reflexivity.
Qed.

Lemma planned_task_can_be_fetched_witness :
  exists body tasks' w' acts,
    App.plan_task
      [("intent", PyDict [("intent", PyStr "send_message")]);
       ("screen_state", PyDict Scenario.launcher_screen)]
      "1730678400.123456" "2024-11-04T00:00:00.123456" []
      (Scenario.always Scenario.scroll_then_click)
    = (Ok (App.Json200 body, tasks'), w')
    /\ body = PyDict [("task_id", PyStr "task_1730678400.123456");
                      ("actions", acts)]
    /\ Api.get_task "task_1730678400.123456" tasks'
       = Api.Found
           (PyDict [("intent", PyDict [("intent", PyStr "send_message")]);
                    ("actions", acts);
                    ("screen_state", PyDict Scenario.launcher_screen);
                    ("created_at", PyStr "2024-11-04T00:00:00.123456")]).
Proof.
  assert (R : exists body tasks' w',
             App.plan_task
               [("intent", PyDict [("intent", PyStr "send_message")]);
                ("screen_state", PyDict Scenario.launcher_screen)]
               "1730678400.123456" "2024-11-04T00:00:00.123456" []
               (Scenario.always Scenario.scroll_then_click)
             = (Ok (App.Json200 body, tasks'), w')).
  { eexists _, _, _. vm_compute. reflexivity. }
  destruct R as (body & tasks' & w' & R).
  destruct (planned_task_can_be_fetched _ _ _ _ _ _ _ _ R) as (acts & B & G).
  exists body, tasks', w', acts. split; [exact R|]. split; [exact B | exact G].
Defined.

(** X15.  The [/api/plan] route never raises, and it writes to the
    store only when it answers 200: then the one entry it writes is
    that of the new identifier, and every other task is found as
    before; with any other answer the store is as it was. *)
Theorem plan_route_store_frame
    (data : pydict) (timestamp created_at : string) (tasks : pydict) (w : world) :
  exists r tasks' w',
    App.plan_task data timestamp created_at tasks w = (Ok (r, tasks'), w')
    /\ (forall task_id,
           task_id <> "task_" +++ timestamp ->
           Api.get_task task_id tasks' = Api.get_task task_id tasks)
    /\ ((forall body, r <> App.Json200 body) -> tasks' = tasks).
Proof.
  destruct (plan_route_cases data timestamp created_at tasks w)
    as [[_ E]|[(_ & _ & E)|[(i & s & _ & _ & _ & _ & E)
                           |(i & s & response & _ & _ & _ & _ & E)]]];
    rewrite E; eexists _, _, _; (split; [reflexivity|]); split; auto.
  - intros task_id N. unfold Api.get_task.
    rewrite (lookup_set_other _ _ _ _ N). reflexivity.
  - intros N. exfalso. exact (N _ eq_refl).
Qed.




